(** * LiSearch: the tool-calling conversation loop and its collaborators

    A shallow embedding of
    - [src/llm/base.py]      ([BaseLLM], [chat_with_tools]),
    - [src/llm/gemini.py]    ([GeminiLLM]: [chat], [execute_tool_call],
                              [format_tool_response]),
    - [src/database/queries.py] (the data access functions),
    together with the properties the specification states about them.

    Python objects are modelled as follows.
    - A value of type [Any] is a [PyVal]: [None], booleans, integers, strings,
      lists and dicts with string keys.
    - A call that may raise is a computation in [Eff S]: a state transformer
      whose outcome is a returned value or a raised exception; effects made
      before a [raise] stay in the state, as in Python.
    - The list object behind [conversation_history] lives in a store of list
      objects ([py_heap]) and is named by its location, so that
      [messages = conversation_history or []] aliases the caller's list
      exactly when Python does.
    - The three abstract methods of [BaseLLM] form the class [BaseLLM]. *)

From Stdlib Require Import ZArith String List Lia Bool.
From stdpp Require Import base option list strings gmap.
Import ListNotations.

Local Open Scope string_scope.
Local Open Scope list_scope.
Local Open Scope Z_scope.

(** ** Python values *)

#[local] Set Warnings "-register-all".

Inductive PyVal : Type :=
| VNone
| VBool (b : bool)
| VInt (z : Z)
| VStr (s : string)
| VList (l : list PyVal)
| VDict (d : list (string * PyVal)).

(** A keyword-argument mapping [Dict[str, Any]], in insertion order. *)
Definition Args : Type := list (string * PyVal).

(** [k in d] and [d[k]] for a dict with string keys. *)
Fixpoint dict_get (d : list (string * PyVal)) (k : string) : option PyVal :=
  match d with
  | [] => None
  | (k', v) :: rest => if String.eqb k' k then Some v else dict_get rest k
  end.

(** Python truthiness, [bool(v)]. *)
Definition truthy (v : PyVal) : bool :=
  match v with
  | VNone => false
  | VBool b => b
  | VInt z => negb (z =? 0)
  | VStr s => negb (String.eqb s "")
  | VList l => match l with [] => false | _ => true end
  | VDict d => match d with [] => false | _ => true end
  end.

(** ** Exceptions and effectful computations *)

Record Exc : Type := mkExc { exc_type : string; exc_str : string }.

Inductive outcome (A : Type) : Type :=
| Ret (a : A)
| Raise (e : Exc).
Arguments Ret {A} a.
Arguments Raise {A} e.

Definition Eff (S A : Type) : Type := S -> outcome A * S.

Definition ret {S A} (a : A) : Eff S A := fun s => (Ret a, s).
Definition raise {S A} (e : Exc) : Eff S A := fun s => (Raise e, s).

Definition bind {S A B} (c : Eff S A) (k : A -> Eff S B) : Eff S B :=
  fun s =>
    match c s with
    | (Ret a, s') => k a s'
    | (Raise e, s') => (Raise e, s')
    end.

(** [try: c  except Exception as e: h e] *)
Definition try_except {S A} (c : Eff S A) (h : Exc -> Eff S A) : Eff S A :=
  fun s =>
    match c s with
    | (Ret a, s') => (Ret a, s')
    | (Raise e, s') => h e s'
    end.

(** A loop of the model runs on fuel: [None] is what it yields when the fuel
    runs out before the loop has finished.  It is not a Python outcome, and
    the methods of a provider, being in [Eff], cannot yield it. *)
Definition Fueled (S A : Type) : Type := S -> option (outcome A * S).

Definition finish {S A} (a : A) : Fueled S A := fun s => Some (Ret a, s).
Definition out_of_fuel {S A} : Fueled S A := fun _ => None.

Definition and_then {S A B} (c : Eff S A) (k : A -> Fueled S B) : Fueled S B :=
  fun s =>
    match c s with
    | (Ret a, s') => k a s'
    | (Raise e, s') => Some (Raise e, s')
    end.

(** A pure expression that may raise, such as [int(x)]. *)
Definition of_outcome {S A} (o : outcome A) : Eff S A := fun s => (o, s).

Declare Scope eff_scope.
Delimit Scope eff_scope with eff.
Notation "x <- c ;; k" := (bind c (fun x => k))
  (at level 100, c at next level, right associativity) : eff_scope.
Notation "c ;; k" := (bind c (fun _ => k))
  (at level 100, right associativity) : eff_scope.
Notation "x <- c ;;> k" := (and_then c (fun x => k))
  (at level 100, c at next level, right associativity) : eff_scope.
Notation "c ;;> k" := (and_then c (fun _ => k))
  (at level 100, right associativity) : eff_scope.
Local Open Scope eff_scope.

(** ** Data of the conversation loop (src/llm/base.py) *)

Record Message : Type := mkMessage { msg_role : string; msg_content : string }.

(** A tool definition as listed in [GEMINI_TOOLS]. *)
Record ToolDef : Type := mkToolDef {
  td_name : string;
  td_description : string;
  td_parameters : PyVal
}.

(** One entry of [response['tool_calls']]. *)
Record ToolCall : Type := mkToolCall { tc_name : string; tc_arguments : Args }.

(** The dict returned by [chat].  A key may be missing, which is what
    [response.get] is written for: [None] stands for an absent key. *)
Record Response : Type := mkResponse {
  resp_content : option string;
  resp_tool_calls : option (list ToolCall)
}.

(** One entry of [tool_calls_made]. *)
Record ToolRecord : Type := mkToolRecord {
  rec_name : string;
  rec_arguments : Args;
  rec_result : PyVal
}.

(** The dict returned by [chat_with_tools]; the key ['error'] is present only
    in the exhausted result. *)
Record Result : Type := mkResult {
  response : string;
  tool_calls_made : list ToolRecord;
  iterations : Z;
  error : option string
}.

Definition fallback_response : string :=
  "I apologize, but I'm having trouble processing your request. Please try rephrasing.".

(** ** The store of message lists *)

(** A list object is named by its position in the store. *)
Abbreviation loc := nat.

(** The interpreter state seen by [chat_with_tools]: the list objects that
    hold conversations, and the environment [E] of the provider methods. *)
Record PyState (E : Type) : Type := mkPyState {
  py_heap : list (list Message);
  py_env : E
}.
Arguments mkPyState {E} _ _.
Arguments py_heap {E} _.
Arguments py_env {E} _.

Section Store.
Context {E : Type}.

(** A new list object: [[]]. *)
Definition heap_alloc (l : list Message) : Eff (PyState E) loc :=
  fun s => (Ret (length (py_heap s)), mkPyState (py_heap s ++ [l]) (py_env s)).

(** The current contents of a list object.  A location handed to
    [chat_with_tools] names a list of the store; for a location outside the
    store, which Python cannot form, reading gives [[]] and [heap_append]
    below does nothing. *)
Definition heap_read (p : loc) : Eff (PyState E) (list Message) :=
  fun s => (Ret (default [] (py_heap s !! p)), s).

(** [p.append(m)]: in place. *)
Definition heap_append (p : loc) (m : Message) : Eff (PyState E) unit :=
  fun s => (Ret tt, mkPyState (alter (fun l => l ++ [m]) p (py_heap s)) (py_env s)).

(** A method of the provider runs on the environment only: it is handed the
    messages as a value and has no access to the list objects. *)
Definition lift {A} (c : Eff E A) : Eff (PyState E) A :=
  fun s => let (o, e') := c (py_env s) in (o, mkPyState (py_heap s) e').

(** [conversation_history or []]: the caller's own list object when it is
    given and non-empty, a new empty list otherwise. *)
Definition history_or_new (conversation_history : option loc)
  : Eff (PyState E) loc :=
  match conversation_history with
  | None => heap_alloc []
  | Some p =>
      l <- heap_read p ;;
      match l with
      | [] => heap_alloc []
      | _ :: _ => ret p
      end
  end.
End Store.

(** [h'] is [h] with messages appended to the list at [p], and nothing else
    changed: no list is added or removed, no message is altered or dropped. *)
Definition heap_extends (p : loc) (h h' : list (list Message)) : Prop :=
  length h' = length h /\
  forall q l, h !! q = Some l ->
    exists added, h' !! q = Some (l ++ added) /\ (q <> p -> added = []).

(** ** BaseLLM: the abstract methods and [chat_with_tools] *)

Class BaseLLM (E : Type) : Type := {
  chat : list Message -> option (list ToolDef) -> Eff E Response;
  execute_tool_call : string -> Args -> Eff E PyVal;
  format_tool_response : string -> PyVal -> Eff E string
}.

Section ChatWithTools.
Context {E : Type} {llm : BaseLLM E}.

(** [not response.get('tool_calls')] is false exactly for a non-empty list. *)
Definition requested_calls (r : Response) : list ToolCall :=
  default [] (resp_tool_calls r).

(** The body of [for tool_call in response['tool_calls']], lines 127-152. *)
Fixpoint exec_tool_calls (messages : loc) (calls : list ToolCall)
    (tool_calls_made : list ToolRecord) : Eff (PyState E) (list ToolRecord) :=
  match calls with
  | [] => ret tool_calls_made
  | tool_call :: rest =>
      let tool_name := tc_name tool_call in
      let tool_args := tc_arguments tool_call in
      tool_result <- lift (execute_tool_call tool_name tool_args) ;;
      let tool_calls_made :=
        tool_calls_made ++ [mkToolRecord tool_name tool_args tool_result] in
      formatted_result <- lift (format_tool_response tool_name tool_result) ;;
      heap_append messages
        (mkMessage "assistant" ("[Tool call: " +:+ tool_name +:+ "]")) ;;
      heap_append messages (mkMessage "user" formatted_result) ;;
      exec_tool_calls messages rest tool_calls_made
  end.

(** [while iterations < max_iterations: ...], lines 111-160.  [fuel] bounds
    the number of turns of the model's loop. *)
Fixpoint chat_loop (fuel : nat) (messages : loc) (tools : option (list ToolDef))
    (max_iterations : Z) (tool_calls_made : list ToolRecord) (iterations : Z)
    : Fueled (PyState E) Result :=
  if iterations <? max_iterations then
    match fuel with
    | O => out_of_fuel
    | S fuel' =>
        let iterations := iterations + 1 in
        msgs <- heap_read messages ;;>
        resp <- lift (chat msgs tools) ;;>
        match requested_calls resp with
        | [] =>
            finish (mkResult (default "" (resp_content resp))
                             tool_calls_made iterations None)
        | calls =>
            tool_calls_made <- exec_tool_calls messages calls tool_calls_made ;;>
            chat_loop fuel' messages tools max_iterations tool_calls_made iterations
        end
    end
  else
    finish (mkResult fallback_response tool_calls_made iterations
                     (Some "max_iterations_reached")).

(** [chat_with_tools], lines 105-160.  The loop runs on
    [Z.to_nat max_iterations] units of fuel, which is always enough
    ([chat_with_tools_traced] and [traced_chat_with_tools_erase] below). *)
Definition chat_with_tools (user_message : string)
    (conversation_history : option loc) (tools : option (list ToolDef))
    (max_iterations : Z) : Fueled (PyState E) Result :=
  messages <- history_or_new conversation_history ;;>
  heap_append messages (mkMessage "user" user_message) ;;>
  chat_loop (Z.to_nat max_iterations) messages tools max_iterations [] 0.
End ChatWithTools.

(** ** Observing a run: the calls made to the provider

    To count and order the calls that [chat_with_tools] makes, any provider
    can be wrapped so that each call of a method is written to a log, with
    its arguments and its outcome.  The wrapped provider behaves as the
    original ([traced_chat_with_tools_erase]). *)

Inductive Event : Type :=
| EvChat (messages : list Message) (tools : option (list ToolDef))
         (out : outcome Response)
| EvExec (tool_name : string) (tool_args : Args) (out : outcome PyVal)
| EvFormat (tool_name : string) (tool_result : PyVal) (out : outcome string).

Definition logged {E A} (c : Eff E A) (ev : outcome A -> Event)
  : Eff (E * list Event) A :=
  fun st => let (o, e') := c (fst st) in (o, (e', snd st ++ [ev o])).

#[local] Instance Traced {E} (llm : BaseLLM E) : BaseLLM (E * list Event) := {|
  chat messages tools := logged (chat messages tools) (EvChat messages tools);
  execute_tool_call tool_name tool_args :=
    logged (execute_tool_call tool_name tool_args) (EvExec tool_name tool_args);
  format_tool_response tool_name tool_result :=
    logged (format_tool_response tool_name tool_result)
           (EvFormat tool_name tool_result)
|}.

Definition trace_of {E} (s : PyState (E * list Event)) : list Event :=
  snd (py_env s).

Definition erase {E} (s : PyState (E * list Event)) : PyState E :=
  mkPyState (py_heap s) (fst (py_env s)).

(** The outcome of a logged run, without its log. *)
Definition erase_run {E A} (x : outcome A * PyState (E * list Event))
  : outcome A * PyState E := (fst x, erase (snd x)).

(** The number of calls of [chat] in a log. *)
Fixpoint chat_calls (t : list Event) : nat :=
  match t with
  | [] => O
  | EvChat _ _ _ :: t' => S (chat_calls t')
  | _ :: t' => chat_calls t'
  end.

(** The responses that [chat] returned, oldest first. *)
Fixpoint chat_responses (t : list Event) : list Response :=
  match t with
  | [] => []
  | EvChat _ _ (Ret r) :: t' => r :: chat_responses t'
  | _ :: t' => chat_responses t'
  end.

(** The tool requests emitted by the provider, in emission order: response by
    response, and within a response in the order it lists them. *)
Definition emitted (t : list Event) : list ToolCall :=
  flat_map requested_calls (chat_responses t).

(** The calls of [execute_tool_call] that returned, each with its result. *)
Fixpoint executed (t : list Event) : list ToolRecord :=
  match t with
  | [] => []
  | EvExec n a (Ret v) :: t' => mkToolRecord n a v :: executed t'
  | _ :: t' => executed t'
  end.

Definition request_of (r : ToolRecord) : ToolCall :=
  mkToolCall (rec_name r) (rec_arguments r).

(** The messages handed to the [n]-th call of [chat] onwards. *)
Fixpoint chat_inputs (t : list Event) : list (list Message) :=
  match t with
  | [] => []
  | EvChat m _ _ :: t' => m :: chat_inputs t'
  | _ :: t' => chat_inputs t'
  end.

(** What the log [ev] of a run of the loop says about its result [r], when
    the loop was entered with [iterations = it] and [tool_calls_made = made]:
    - the records are [made] followed by the executed calls, which are the
      emitted requests, in order;
    - [iterations] counts the calls of [chat];
    - a result without the ['error'] key carries the content of the response
      that came last, which asked for no tool;
    - a result with it carries the fallback text, the loop has called [chat]
      for every iteration left, and the response that came last asked for
      tools, which were executed after it with no call of [chat] following. *)
Definition describes (max it : Z) (made : list ToolRecord) (ev : list Event)
    (r : Result) : Prop :=
  tool_calls_made r = made ++ executed ev /\
  map request_of (executed ev) = emitted ev /\
  iterations r = it + Z.of_nat (chat_calls ev) /\
  match error r with
  | None =>
      exists ev0 m t resp,
        ev = ev0 ++ [EvChat m t (Ret resp)] /\
        requested_calls resp = [] /\
        response r = default "" (resp_content resp)
  | Some err =>
      err = "max_iterations_reached" /\
      response r = fallback_response /\
      chat_calls ev = Z.to_nat (max - it) /\
      (it < max ->
       exists ev0 m t resp evs,
         ev = ev0 ++ EvChat m t (Ret resp) :: evs /\
         chat_calls evs = O /\
         requested_calls resp <> [] /\
         map request_of (executed evs) = requested_calls resp)
  end.

(** [s] occurs in [t] as a contiguous piece. *)
Definition contains (t s : string) : Prop :=
  exists pre post : string, t = pre +:+ s +:+ post.

(** ** The Gemini provider (src/llm/gemini.py) and the data access functions
       (src/database/queries.py) *)

(** What [model.generate_content] returns, as far as [chat] reads it. *)
Record FunctionCall : Type := mkFunctionCall { fc_name : string; fc_args : Args }.

(** A part of a candidate.  [None] stands for an attribute that is missing or
    falsy in the sense of [hasattr(part, a) and part.a]. *)
Record Part : Type := mkPart {
  function_call : option FunctionCall;
  text : option string
}.
Record Candidate : Type := mkCandidate { parts : list Part }.
Record ProviderResponse : Type := mkProviderResponse {
  candidates : list Candidate
}.

Record FunctionDeclaration : Type := mkFunctionDeclaration {
  fd_name : string;
  fd_description : string;
  fd_parameters : PyVal
}.
Record Tool : Type := mkTool { function_declarations : list FunctionDeclaration }.

(** The environment of the Gemini provider: what was printed, and the states
    of the two remote services. *)
Record Env (P B : Type) : Type := mkEnv {
  stdout : list string;
  provider : P;
  backend : B
}.
Arguments mkEnv {P B} _ _ _.
Arguments stdout {P B} _.
Arguments provider {P B} _.
Arguments backend {P B} _.

Definition nl : string := String (Ascii.ascii_of_nat 10) EmptyString.

Definition TypeError (msg : string) : Exc := mkExc "TypeError" msg.
Definition KeyError (msg : string) : Exc := mkExc "KeyError" msg.
Definition IndexError (msg : string) : Exc := mkExc "IndexError" msg.

(** [v[0]] *)
Definition py_index0 (v : PyVal) : outcome PyVal :=
  match v with
  | VList (x :: _) => Ret x
  | VList [] => Raise (IndexError "list index out of range")
  | VStr (String c _) => Ret (VStr (String c EmptyString))
  | VStr EmptyString => Raise (IndexError "string index out of range")
  | VDict _ => Raise (KeyError "0")
  | _ => Raise (TypeError "object is not subscriptable")
  end.

(** [v['name']] for a string key. *)
Definition py_getitem (v : PyVal) (k : string) : outcome PyVal :=
  match v with
  | VDict d =>
      match dict_get d k with
      | Some x => Ret x
      | None => Raise (KeyError ("'" +:+ k +:+ "'"))
      end
  | VList _ => Raise (TypeError "list indices must be integers or slices, not str")
  | VStr _ => Raise (TypeError "string indices must be integers, not 'str'")
  | _ => Raise (TypeError "object is not subscriptable")
  end.

(** The elements that [for x in v] goes through. *)
Definition py_iter (v : PyVal) : outcome (list PyVal) :=
  match v with
  | VList l => Ret l
  | VDict d => Ret (map (fun kv => VStr (fst kv)) d)
  | VStr s => Ret (map (fun c => VStr (String c EmptyString)) (list_ascii_of_string s))
  | _ => Raise (TypeError "object is not iterable")
  end.

(** [[f x for x in l]], left to right, stopping at the first exception. *)
Fixpoint map_outcome {A B} (f : A -> outcome B) (l : list A) : outcome (list B) :=
  match l with
  | [] => Ret []
  | x :: rest =>
      match f x with
      | Ret y =>
          match map_outcome f rest with
          | Ret ys => Ret (y :: ys)
          | Raise e => Raise e
          end
      | Raise e => Raise e
      end
  end.

(** A call with keyword arguments unpacked from a dict: the first keyword
    that is not a parameter of the function. *)
Fixpoint unexpected_kwarg (params : list string) (kwargs : Args) : option string :=
  match kwargs with
  | [] => None
  | (k, _) :: rest =>
      if existsb (String.eqb k) params then unexpected_kwarg params rest
      else Some k
  end.

Definition check_kwargs {S} (fname : string) (params : list string) (kwargs : Args)
  : Eff S unit :=
  match unexpected_kwarg params kwargs with
  | Some k =>
      raise (TypeError (fname +:+ "() got an unexpected keyword argument '"
                          +:+ k +:+ "'"))
  | None => ret tt
  end.

(** The value of a parameter that has a default. *)
Definition kwarg (kwargs : Args) (name : string) (dflt : PyVal) : PyVal :=
  default dflt (dict_get kwargs name).

Section Gemini.
(** The states of the hosted model and of the hosted database. *)
Context {P B : Type}.

(** [genai.GenerativeModel(model_name[, tools]).generate_content(prompt)] *)
Variable generate_content :
  string -> option (list Tool) -> string -> Eff P ProviderResponse.
(** [supabase.rpc(name, params).execute().data] *)
Variable rpc : string -> Args -> Eff B PyVal.
(** [supabase.table(t).select(columns).eq(k1, v1)....execute().data] *)
Variable table_select : string -> string -> list (string * string) -> Eff B PyVal.
(** The builtins [int] and [str], [json.dumps(v, indent=2)] and
    [traceback.format_exc()]. *)
Variable py_int : PyVal -> outcome Z.
Variable py_str : PyVal -> string.
Variable json_dumps : PyVal -> string.
Variable format_exc : Exc -> string.

Definition print (line : string) : Eff (Env P B) unit :=
  fun e => (Ret tt, mkEnv (stdout e ++ [line]) (provider e) (backend e)).

Definition on_provider {A} (c : Eff P A) : Eff (Env P B) A :=
  fun e => let (o, p') := c (provider e) in (o, mkEnv (stdout e) p' (backend e)).

Definition on_backend {A} (c : Eff B A) : Eff (Env P B) A :=
  fun e => let (o, b') := c (backend e) in (o, mkEnv (stdout e) (provider e) b').

(** *** src/database/queries.py *)

Definition get_top_selling_products (category limit days : PyVal)
  : Eff (Env P B) PyVal :=
  try_except
    (p_limit <- of_outcome (py_int limit) ;;
     p_days <- of_outcome (py_int days) ;;
     on_backend (rpc "get_top_selling_products"
                     [("p_category", category);
                      ("p_limit", VInt p_limit);
                      ("p_days", VInt p_days)]))
    (fun e =>
       print ("Error calling get_top_selling_products: " +:+ exc_str e) ;;
       ret (VList [])).

Definition get_trending_products (days limit : PyVal) : Eff (Env P B) PyVal :=
  try_except
    (p_days <- of_outcome (py_int days) ;;
     p_limit <- of_outcome (py_int limit) ;;
     on_backend (rpc "get_trending_products"
                     [("p_days", VInt p_days); ("p_limit", VInt p_limit)]))
    (fun e =>
       print ("Error calling get_trending_products: " +:+ exc_str e) ;;
       ret (VList [])).

Definition search_products_by_description (search_term : PyVal)
  : Eff (Env P B) PyVal :=
  try_except
    (on_backend (rpc "search_products_by_description"
                     [("p_search_term", search_term)]))
    (fun e =>
       print ("Error calling search_products_by_description: " +:+ exc_str e) ;;
       ret (VList [])).

Definition get_low_stock_products (limit : PyVal) : Eff (Env P B) PyVal :=
  try_except
    (p_limit <- of_outcome (py_int limit) ;;
     on_backend (rpc "get_low_stock_products" [("p_limit", VInt p_limit)]))
    (fun e =>
       print ("Error calling get_low_stock_products: " +:+ exc_str e) ;;
       ret (VList [])).

Definition get_sales_summary_by_category (days : PyVal) : Eff (Env P B) PyVal :=
  try_except
    (p_days <- of_outcome (py_int days) ;;
     on_backend (rpc "get_sales_summary_by_category" [("p_days", VInt p_days)]))
    (fun e =>
       print ("Error calling get_sales_summary_by_category: " +:+ exc_str e) ;;
       ret (VList [])).

Definition get_product_details (product_id product_name : PyVal)
  : Eff (Env P B) PyVal :=
  try_except
    (data <- on_backend (rpc "get_product_details"
                             [("p_product_id", product_id);
                              ("p_product_name", product_name)]) ;;
     if truthy data then of_outcome (py_index0 data) else ret VNone)
    (fun e =>
       print ("Error calling get_product_details: " +:+ exc_str e) ;;
       ret VNone).

Definition get_recent_transactions (limit : PyVal) : Eff (Env P B) PyVal :=
  try_except
    (p_limit <- of_outcome (py_int limit) ;;
     on_backend (rpc "get_recent_transactions" [("p_limit", VInt p_limit)]))
    (fun e =>
       print ("Error calling get_recent_transactions: " +:+ exc_str e) ;;
       ret (VList [])).

Definition get_all_categories : Eff (Env P B) PyVal :=
  try_except
    (data <- on_backend (table_select "categories" "name" []) ;;
     cats <- of_outcome (py_iter data) ;;
     names <- of_outcome (map_outcome (fun cat => py_getitem cat "name") cats) ;;
     ret (VList names))
    (fun e =>
       print ("Error getting categories: " +:+ exc_str e) ;;
       ret (VList [])).

Definition get_category_products (category : string) : Eff (Env P B) PyVal :=
  try_except
    (on_backend (table_select "products"
                   "id, name, brand, retail_price, categories!inner(name)"
                   [("status", "active"); ("categories.name", category)]))
    (fun e =>
       print ("Error getting category products: " +:+ exc_str e) ;;
       ret (VList [])).

(** The data access functions with their arguments, as one type; a value
    of it is one call. *)
Inductive DataAccessCall : Type :=
| TopSellingProducts (category limit days : PyVal)
| TrendingProducts (days limit : PyVal)
| SearchProductsByDescription (search_term : PyVal)
| LowStockProducts (limit : PyVal)
| SalesSummaryByCategory (days : PyVal)
| ProductDetails (product_id product_name : PyVal)
| RecentTransactions (limit : PyVal)
| AllCategories
| CategoryProducts (category : string).

Definition run_call (c : DataAccessCall) : Eff (Env P B) PyVal :=
  match c with
  | TopSellingProducts category limit days =>
      get_top_selling_products category limit days
  | TrendingProducts days limit => get_trending_products days limit
  | SearchProductsByDescription search_term =>
      search_products_by_description search_term
  | LowStockProducts limit => get_low_stock_products limit
  | SalesSummaryByCategory days => get_sales_summary_by_category days
  | ProductDetails product_id product_name =>
      get_product_details product_id product_name
  | RecentTransactions limit => get_recent_transactions limit
  | AllCategories => get_all_categories
  | CategoryProducts category => get_category_products category
  end.

(** What a data access function returns from its [except] branch: [None]
    for the single-record query, [[]] for the others. *)
Definition failure_value (c : DataAccessCall) : PyVal :=
  match c with
  | ProductDetails _ _ => VNone
  | _ => VList []
  end.

(** The line it prints there. *)
Definition failure_line (c : DataAccessCall) (e : Exc) : string :=
  match c with
  | TopSellingProducts _ _ _ => "Error calling get_top_selling_products: "
  | TrendingProducts _ _ => "Error calling get_trending_products: "
  | SearchProductsByDescription _ =>
      "Error calling search_products_by_description: "
  | LowStockProducts _ => "Error calling get_low_stock_products: "
  | SalesSummaryByCategory _ => "Error calling get_sales_summary_by_category: "
  | ProductDetails _ _ => "Error calling get_product_details: "
  | RecentTransactions _ => "Error calling get_recent_transactions: "
  | AllCategories => "Error getting categories: "
  | CategoryProducts _ => "Error getting category products: "
  end +:+ exc_str e.

(** The request that a call sends to the backend once its numeric
    arguments have gone through [int]; [None] when [int] raises, in which
    case nothing is sent. *)
Definition backend_request (c : DataAccessCall) : option (Eff B PyVal) :=
  let int v := match py_int v with Ret z => Some z | Raise _ => None end in
  match c with
  | TopSellingProducts category limit days =>
      l ← int limit; d ← int days;
      Some (rpc "get_top_selling_products"
                [("p_category", category); ("p_limit", VInt l); ("p_days", VInt d)])
  | TrendingProducts days limit =>
      d ← int days; l ← int limit;
      Some (rpc "get_trending_products" [("p_days", VInt d); ("p_limit", VInt l)])
  | SearchProductsByDescription search_term =>
      Some (rpc "search_products_by_description" [("p_search_term", search_term)])
  | LowStockProducts limit =>
      l ← int limit; Some (rpc "get_low_stock_products" [("p_limit", VInt l)])
  | SalesSummaryByCategory days =>
      d ← int days; Some (rpc "get_sales_summary_by_category" [("p_days", VInt d)])
  | ProductDetails product_id product_name =>
      Some (rpc "get_product_details"
                [("p_product_id", product_id); ("p_product_name", product_name)])
  | RecentTransactions limit =>
      l ← int limit; Some (rpc "get_recent_transactions" [("p_limit", VInt l)])
  | AllCategories => Some (table_select "categories" "name" [])
  | CategoryProducts category =>
      Some (table_select "products"
              "id, name, brand, retail_price, categories!inner(name)"
              [("status", "active"); ("categories.name", category)])
  end.

(** *** src/llm/gemini.py *)

(** [self.tool_map]: each tool name with the function it is bound to, called
    with the keyword arguments of the request. *)
Definition tool_map : gmap string (Args -> Eff (Env P B) PyVal) :=
  list_to_map [
    ("get_top_selling_products", fun kw =>
       check_kwargs "get_top_selling_products" ["category"; "limit"; "days"] kw ;;
       get_top_selling_products (kwarg kw "category" VNone)
         (kwarg kw "limit" (VInt 10)) (kwarg kw "days" (VInt 30)));
    ("get_trending_products", fun kw =>
       check_kwargs "get_trending_products" ["days"; "limit"] kw ;;
       get_trending_products (kwarg kw "days" (VInt 7))
         (kwarg kw "limit" (VInt 10)));
    ("search_products_by_description", fun kw =>
       check_kwargs "search_products_by_description" ["search_term"] kw ;;
       match dict_get kw "search_term" with
       | Some search_term => search_products_by_description search_term
       | None =>
           raise (TypeError ("search_products_by_description() missing 1 "
                               +:+ "required positional argument: 'search_term'"))
       end);
    ("get_low_stock_products", fun kw =>
       check_kwargs "get_low_stock_products" ["limit"] kw ;;
       get_low_stock_products (kwarg kw "limit" (VInt 20)));
    ("get_sales_summary_by_category", fun kw =>
       check_kwargs "get_sales_summary_by_category" ["days"] kw ;;
       get_sales_summary_by_category (kwarg kw "days" (VInt 30)));
    ("get_product_details", fun kw =>
       check_kwargs "get_product_details" ["product_id"; "product_name"] kw ;;
       get_product_details (kwarg kw "product_id" VNone)
         (kwarg kw "product_name" VNone));
    ("get_recent_transactions", fun kw =>
       check_kwargs "get_recent_transactions" ["limit"] kw ;;
       get_recent_transactions (kwarg kw "limit" (VInt 10)))
  ].

(** One turn of the loop over [messages] that fills [prompt_parts]. *)
Definition prompt_part (msg : Message) : list string :=
  let role := msg_role msg in
  let content := msg_content msg in
  if String.eqb role "system" then ["System: " +:+ content +:+ nl]
  else if String.eqb role "user" then ["User: " +:+ content +:+ nl]
  else if String.eqb role "assistant" then ["Assistant: " +:+ content +:+ nl]
  else [].

Definition full_prompt (messages : list Message) : string :=
  String.concat nl (flat_map prompt_part messages).

Definition _convert_tools_to_gemini_format (tools : list ToolDef) : list Tool :=
  [mkTool (map (fun tool =>
                  mkFunctionDeclaration (td_name tool) (td_description tool)
                                        (td_parameters tool))
               tools)].

(** [gemini_tools], lines 66-68: set only for a non-empty tool list. *)
Definition gemini_tools_of (tools : option (list ToolDef)) : option (list Tool) :=
  match tools with
  | Some (t :: ts) => Some (_convert_tools_to_gemini_format (t :: ts))
  | _ => None
  end.

(** The dict [result] while the response is read: its content and its tool
    calls so far. *)
Definition extract_part (result : string * list ToolCall) (part : Part)
  : string * list ToolCall :=
  let result :=
    match function_call part with
    | Some fc => (fst result, snd result ++ [mkToolCall (fc_name fc) (fc_args fc)])
    | None => result
    end in
  match text part with
  | Some t => if String.eqb t "" then result else (fst result +:+ t, snd result)
  | None => result
  end.

Definition extract_candidate (result : string * list ToolCall) (c : Candidate)
  : string * list ToolCall :=
  fold_left extract_part (parts c) result.

(** Lines 83-106. *)
Definition parse_response (r : ProviderResponse) : Response :=
  let result := fold_left extract_candidate (candidates r) ("", []) in
  let content :=
    match snd result with
    | _ :: _ => if String.eqb (fst result) "" then "[Calling tools...]" else fst result
    | [] => fst result
    end in
  mkResponse (Some content) (Some (snd result)).

Record GeminiLLM : Type := mkGeminiLLM { api_key : string; model_name : string }.

Section Methods.
Variable self : GeminiLLM.

Definition gemini_chat (messages : list Message) (tools : option (list ToolDef))
  : Eff (Env P B) Response :=
  try_except
    (let prompt := full_prompt messages in
     let gemini_tools := gemini_tools_of tools in
     r <- on_provider (generate_content (model_name self) gemini_tools prompt) ;;
     ret (parse_response r))
    (fun e =>
       print ("Error in Gemini chat: " +:+ exc_str e) ;;
       print (format_exc e) ;;
       ret (mkResponse (Some ("Error: " +:+ exc_str e)) (Some []))).

Definition error_value (description : string) : PyVal :=
  VDict [("error", VStr description)].

Definition gemini_execute_tool_call (tool_name : string) (tool_args : Args)
  : Eff (Env P B) PyVal :=
  match tool_map !! tool_name with
  | None => ret (error_value ("Unknown tool: " +:+ tool_name))
  | Some func =>
      try_except
        (func tool_args)
        (fun e =>
           print ("Error executing tool " +:+ tool_name +:+ ": " +:+ exc_str e) ;;
           print (format_exc e) ;;
           ret (error_value (exc_str e)))
  end.

Definition gemini_format_tool_response (tool_name : string) (tool_result : PyVal)
  : Eff (Env P B) string :=
  match tool_result with
  | VDict d =>
      match dict_get d "error" with
      | Some err => ret ("Error executing " +:+ tool_name +:+ ": " +:+ py_str err)
      | None => ret (json_dumps tool_result)
      end
  | VList _ => ret (json_dumps tool_result)
  | _ => ret (py_str tool_result)
  end.

#[local] Instance Gemini : BaseLLM (Env P B) := {|
  chat := gemini_chat;
  execute_tool_call := gemini_execute_tool_call;
  format_tool_response := gemini_format_tool_response
|}.
End Methods.
End Gemini.

(** ** Concrete providers, for running the model *)

(** A stub provider that plays a fixed script of responses, then answers
    with a plain text; its tools echo the name they are called with. *)
Definition scripted_chat (_ : list Message) (_ : option (list ToolDef))
  : Eff (list Response) Response :=
  fun script =>
    match script with
    | [] => (Ret (mkResponse (Some "done") (Some [])), [])
    | r :: rest => (Ret r, rest)
    end.

#[local] Instance Scripted : BaseLLM (list Response) := {|
  chat := scripted_chat;
  execute_tool_call tool_name _ := ret (VStr ("result of " +:+ tool_name));
  format_tool_response _ tool_result :=
    ret (match tool_result with VStr s => s | _ => "?" end)
|}.

(** A stub provider that asks for two tools in every response. *)
Definition two_calls : list ToolCall :=
  [mkToolCall "get_low_stock_products" [("limit", VInt 3)];
   mkToolCall "get_recent_transactions" []].

#[local] Instance Insatiable : BaseLLM unit := {|
  chat _ _ := ret (mkResponse None (Some two_calls));
  execute_tool_call tool_name _ := ret (VStr ("result of " +:+ tool_name));
  format_tool_response _ _ := ret "ok"
|}.

(** A hosted model that plays a script of outcomes of [generate_content] and
    then returns responses without candidates. *)
Definition scripted_generate_content (_ : string) (_ : option (list Tool))
    (_ : string) : Eff (list (outcome ProviderResponse)) ProviderResponse :=
  fun script =>
    match script with
    | [] => (Ret (mkProviderResponse []), [])
    | o :: rest => (o, rest)
    end.

Definition network_down : Exc := mkExc "ConnectionError" "network is unreachable".

Definition sample_rows : PyVal :=
  VList [VDict [("name", VStr "Merlot"); ("stock", VInt 2)]].

(** A hosted database whose state says whether it can be reached. *)
Definition flaky_rpc (_ : string) (_ : Args) : Eff bool PyVal :=
  fun up => if up then (Ret sample_rows, up) else (Raise network_down, up).

Definition flaky_table_select (_ _ : string) (_ : list (string * string))
  : Eff bool PyVal :=
  fun up => if up then (Ret sample_rows, up) else (Raise network_down, up).

Definition simple_int (v : PyVal) : outcome Z :=
  match v with
  | VInt z => Ret z
  | VBool b => Ret (if b then 1 else 0)
  | _ => Raise (TypeError "int() argument must be a string or a number")
  end.

Definition simple_str (v : PyVal) : string :=
  match v with
  | VStr s => s
  | VNone => "None"
  | _ => "<value>"
  end.

Definition simple_json_dumps (v : PyVal) : string :=
  match v with
  | VList [] => "[]"
  | VDict [] => "{}"
  | _ => "<json>"
  end.

Definition simple_format_exc (e : Exc) : string :=
  "Traceback (most recent call last): " +:+ exc_type e +:+ ": " +:+ exc_str e.

Definition the_llm : GeminiLLM := mkGeminiLLM "key" "gemini-2.5-flash-lite".

Definition StubGemini : BaseLLM (Env (list (outcome ProviderResponse)) bool) :=
  Gemini scripted_generate_content flaky_rpc simple_int simple_str
         simple_json_dumps simple_format_exc the_llm.

Definition system_message : Message := mkMessage "system" "You are a helpful assistant.".

(** A caller whose history, the list object at location 0, holds the system
    message; the stub provider answers at once. *)
Definition shared_state : PyState (list Response) :=
  mkPyState [[system_message]] [].

(** The same caller, with a logged stub provider that first asks for two
    tools and then answers. *)
Definition scripted_state : PyState (list Response * list Event) :=
  mkPyState [[system_message]] ([mkResponse None (Some two_calls)], []).

Definition insatiable_state : PyState (unit * list Event) :=
  mkPyState [] (tt, []).

(** The Gemini provider in front of a hosted model with the given script and
    a database that is up or down; nothing printed yet. *)
Definition stub_env (script : list (outcome ProviderResponse)) (up : bool)
  : Env (list (outcome ProviderResponse)) bool :=
  mkEnv [] script up.

Definition gemini_state (script : list (outcome ProviderResponse)) (up : bool)
  : PyState (Env (list (outcome ProviderResponse)) bool) :=
  mkPyState [] (stub_env script up).

Definition logged_gemini_state (script : list (outcome ProviderResponse)) (up : bool)
  : PyState (Env (list (outcome ProviderResponse)) bool * list Event) :=
  mkPyState [] (stub_env script up, []).

(** ** The conversation as the provider sees it *)

(** The two synthetic turns that report one rendered tool result. *)
Definition tool_turns (tool_name formatted_result : string) : list Message :=
  [mkMessage "assistant" ("[Tool call: " +:+ tool_name +:+ "]");
   mkMessage "user" formatted_result].

(** The synthetic turns that a log accounts for: two for each call of
    [format_tool_response] that returned. *)
Fixpoint synthetic_turns (t : list Event) : list Message :=
  match t with
  | [] => []
  | EvFormat n _ (Ret f) :: t' => tool_turns n f ++ synthetic_turns t'
  | _ :: t' => synthetic_turns t'
  end.

(** Every call of [chat] in the log [t] was handed the tool list [tools] and
    the conversation as it stood at that point: [L] followed by the synthetic
    turns of the calls logged before it. *)
Fixpoint ledger_ok (tools : option (list ToolDef)) (L : list Message)
    (t : list Event) : Prop :=
  match t with
  | [] => True
  | EvChat m tl _ :: t' => m = L /\ tl = tools /\ ledger_ok tools L t'
  | EvFormat n _ (Ret f) :: t' => ledger_ok tools (L ++ tool_turns n f) t'
  | _ :: t' => ledger_ok tools L t'
  end.

(** The logged call returned, or raised [e]. *)
Definition returned (ev : Event) : Prop :=
  match ev with
  | EvChat _ _ (Ret _) | EvExec _ _ (Ret _) | EvFormat _ _ (Ret _) => True
  | _ => False
  end.

Definition raised (e : Exc) (ev : Event) : Prop :=
  match ev with
  | EvChat _ _ (Raise e') | EvExec _ _ (Raise e') | EvFormat _ _ (Raise e') =>
      e' = e
  | _ => False
  end.

(** The list that [messages] names after line 105, and what it holds then:
    the caller's list with its contents when a non-empty history is given, a
    new empty list otherwise. *)
Definition working_loc (h : option loc) (heap : list (list Message)) : loc :=
  match h with
  | Some q =>
      match heap !! q with
      | Some (_ :: _) => q
      | _ => length heap
      end
  | None => length heap
  end.

Definition working_base (h : option loc) (heap : list (list Message))
  : list Message :=
  match h with
  | Some q => default [] (heap !! q)
  | None => []
  end.

(** A log [ev] agrees with the outcome [o] of the run that wrote it: every
    call returned when the run returned; when the run raised [e], the last
    call raised [e] and all the calls before it returned. *)
Definition log_outcome {A} (o : outcome A) (ev : list Event) : Prop :=
  match o with
  | Ret _ => Forall returned ev
  | Raise e =>
      exists ev0 last,
        ev = ev0 ++ [last] /\ Forall returned ev0 /\ raised e last
  end.

(** ** Reading a provider response *)

(** All the parts of a response, candidate by candidate. *)
Definition all_parts (r : ProviderResponse) : list Part :=
  flat_map parts (candidates r).

(** The tool request that a part carries, if any, and its text. *)
Definition part_calls (part : Part) : list ToolCall :=
  match function_call part with
  | Some fc => [mkToolCall (fc_name fc) (fc_args fc)]
  | None => []
  end.

Definition part_text (part : Part) : string := default "" (text part).

(** ** The signatures of the data access functions bound in [tool_map]
       (src/database/queries.py): the parameter names of each function, and
       the default value of each parameter that has one. *)
Definition tool_signatures : list (string * list string) :=
  [("get_top_selling_products", ["category"; "limit"; "days"]);
   ("get_trending_products", ["days"; "limit"]);
   ("search_products_by_description", ["search_term"]);
   ("get_low_stock_products", ["limit"]);
   ("get_sales_summary_by_category", ["days"]);
   ("get_product_details", ["product_id"; "product_name"]);
   ("get_recent_transactions", ["limit"])].

Definition tool_defaults : list (string * string * PyVal) :=
  [("get_top_selling_products", "category", VNone);
   ("get_top_selling_products", "limit", VInt 10);
   ("get_top_selling_products", "days", VInt 30);
   ("get_trending_products", "days", VInt 7);
   ("get_trending_products", "limit", VInt 10);
   ("get_low_stock_products", "limit", VInt 20);
   ("get_sales_summary_by_category", "days", VInt 30);
   ("get_product_details", "product_id", VNone);
   ("get_product_details", "product_name", VNone);
   ("get_recent_transactions", "limit", VInt 10)].

(** The roles that [chat] writes into the prompt. *)
Definition known_role (msg : Message) : bool :=
  String.eqb (msg_role msg) "system" || String.eqb (msg_role msg) "user"
  || String.eqb (msg_role msg) "assistant".

(** The data access functions that hand the rows of the backend on as they
    are: all but [get_product_details], which picks the first row, and
    [get_all_categories], which picks the names. *)
Definition passes_rows_on (c : DataAccessCall) : bool :=
  match c with
  | ProductDetails _ _ | AllCategories => false
  | _ => true
  end.

(** ** The tool definitions (src/llm/tools.py) *)

(** The double quote, which the descriptions below contain. *)
Definition dq : string := String (Ascii.ascii_of_nat 34) EmptyString.

Definition GEMINI_TOOLS : list ToolDef :=
  [ mkToolDef "get_top_selling_products"
    "Get the best-selling products by total quantity sold. Use this when users ask about top sellers, best sellers, or most popular products."
    (VDict
       [("type", VStr "object");
        ("properties",
        VDict
          [("category",
           VDict
             [("type", VStr "string");
              ("description",
              VStr "Optional category to filter by (Wine, Beer, Spirits, Liqueurs, Ready-to-Drink). Leave null for all categories.");
              ("nullable", VBool true)]);
           ("limit",
           VDict
             [("type", VStr "integer");
              ("description",
              VStr "Number of products to return (default: 10)")]);
           ("days",
           VDict
             [("type", VStr "integer");
              ("description",
              VStr "Number of days to look back for sales data (default: 30)")])])]);
    mkToolDef "get_trending_products"
    "Get products that are trending based on recent sales velocity. Use this when users ask about trending, hot, or what's popular right now."
    (VDict
       [("type", VStr "object");
        ("properties",
        VDict
          [("days",
           VDict
             [("type", VStr "integer");
              ("description",
              VStr "Number of days for the recent period (default: 7)")]);
           ("limit",
           VDict
             [("type", VStr "integer");
              ("description",
              VStr "Number of products to return (default: 10)")])])]);
    mkToolDef "search_products_by_description"
    ("Search for products by name, description, or brand. Use this when users describe characteristics like " +:+ dq +:+ "woody" +:+ dq +:+ ", " +:+ dq +:+ "citrus" +:+ dq +:+ ", " +:+ dq +:+ "smooth" +:+ dq +:+ ", or search for specific product names.")
    (VDict
       [("type", VStr "object");
        ("properties",
        VDict
          [("search_term",
           VDict
             [("type", VStr "string");
              ("description",
              VStr "The search term to match against product names, descriptions, and brands")])]);
        ("required", VList [VStr "search_term"])]);
    mkToolDef "get_low_stock_products"
    "Get products that need reordering (at or below reorder level). Use this when users ask about low stock, inventory alerts, or what needs to be restocked."
    (VDict
       [("type", VStr "object");
        ("properties",
        VDict
          [("limit",
           VDict
             [("type", VStr "integer");
              ("description",
              VStr "Maximum number of products to return (default: 20)")])])]);
    mkToolDef "get_sales_summary_by_category"
    "Get sales performance summary broken down by product category. Use this when users ask about category performance, which category sells best, or want category-level analytics."
    (VDict
       [("type", VStr "object");
        ("properties",
        VDict
          [("days",
           VDict
             [("type", VStr "integer");
              ("description",
              VStr "Number of days to look back (default: 30)")])])]);
    mkToolDef "get_product_details"
    "Get detailed information about a specific product including sales history. Use this when users ask about a specific product by name or want detailed info."
    (VDict
       [("type", VStr "object");
        ("properties",
        VDict
          [("product_id",
           VDict
             [("type", VStr "integer");
              ("description", VStr "Product ID (if known)");
              ("nullable", VBool true)]);
           ("product_name",
           VDict
             [("type", VStr "string");
              ("description", VStr "Product name to search for");
              ("nullable", VBool true)])])]);
    mkToolDef "get_recent_transactions"
    "Get recent sales transactions with details. Use this when users ask about recent sales, latest orders, or transaction history."
    (VDict
       [("type", VStr "object");
        ("properties",
        VDict
          [("limit",
           VDict
             [("type", VStr "integer");
              ("description",
              VStr "Number of transactions to return (default: 10)")])])]) ].

(** An entry of [OPENAI_TOOLS]. *)
Record OpenAITool : Type := mkOpenAITool {
  oa_type : string;
  oa_function : ToolDef
}.

Definition OPENAI_TOOLS : list OpenAITool :=
  map (fun tool =>
         mkOpenAITool "function"
           (mkToolDef (td_name tool) (td_description tool) (td_parameters tool)))
      GEMINI_TOOLS.

(** [str.lower] on the bytes of a string: the letters A-Z go to a-z and every
    other byte stays.  Python also maps letters outside ASCII, but none of
    them to a letter of the words that the code compares the result with
    ([gemini], [openai], [true]), so the comparisons below come out the same. *)
Definition lower_ascii (c : Ascii.ascii) : Ascii.ascii :=
  let n := Ascii.nat_of_ascii c in
  if ((65 <=? n) && (n <=? 90))%nat then Ascii.ascii_of_nat (n + 32) else c.

Fixpoint lower (s : string) : string :=
  match s with
  | EmptyString => EmptyString
  | String c s' => String (lower_ascii c) (lower s')
  end.

Definition ValueError (msg : string) : Exc := mkExc "ValueError" msg.

Definition get_tools_for_provider (provider : string)
  : outcome (list ToolDef + list OpenAITool) :=
  if String.eqb (lower provider) "gemini" then Ret (inl GEMINI_TOOLS)
  else if String.eqb (lower provider) "openai" then Ret (inr OPENAI_TOOLS)
  else Raise (ValueError ("Unknown provider: " +:+ provider)).

(** The argument names that the schema of a tool declares, and those it
    lists as required. *)
Definition declared_properties (tool : ToolDef) : list string :=
  match td_parameters tool with
  | VDict d =>
      match dict_get d "properties" with
      | Some (VDict props) => map fst props
      | _ => []
      end
  | _ => []
  end.

Definition declared_required (tool : ToolDef) : list string :=
  match td_parameters tool with
  | VDict d =>
      match dict_get d "required" with
      | Some (VList l) =>
          flat_map (fun v => match v with VStr s => [s] | _ => [] end) l
      | _ => []
      end
  | _ => []
  end.

(** The call that [func] applied to the unpacked [tool_args] is, for the
    function that [self.tool_map] (gemini.py, lines 29-37) binds to
    [tool_name]: a parameter that [tool_args] leaves out takes the default
    of the signature in queries.py.  [None] for a name that is not bound,
    and for [search_products_by_description] without its [search_term], the
    one parameter that has no default. *)
Definition bound_call (tool_name : string) (tool_args : Args)
  : option DataAccessCall :=
  if String.eqb tool_name "get_top_selling_products" then
    Some (TopSellingProducts (kwarg tool_args "category" VNone)
            (kwarg tool_args "limit" (VInt 10)) (kwarg tool_args "days" (VInt 30)))
  else if String.eqb tool_name "get_trending_products" then
    Some (TrendingProducts (kwarg tool_args "days" (VInt 7))
            (kwarg tool_args "limit" (VInt 10)))
  else if String.eqb tool_name "search_products_by_description" then
    option_map SearchProductsByDescription (dict_get tool_args "search_term")
  else if String.eqb tool_name "get_low_stock_products" then
    Some (LowStockProducts (kwarg tool_args "limit" (VInt 20)))
  else if String.eqb tool_name "get_sales_summary_by_category" then
    Some (SalesSummaryByCategory (kwarg tool_args "days" (VInt 30)))
  else if String.eqb tool_name "get_product_details" then
    Some (ProductDetails (kwarg tool_args "product_id" VNone)
            (kwarg tool_args "product_name" VNone))
  else if String.eqb tool_name "get_recent_transactions" then
    Some (RecentTransactions (kwarg tool_args "limit" (VInt 10)))
  else None.

(** ** Settings (src/config/settings.py) *)

(** [os.environ], once [load_dotenv] has run. *)
Abbreviation Environ := (gmap string string).

(** [os.getenv(key)] *)
Definition getenv (key : string) : Eff Environ (option string) :=
  fun environ => (Ret (environ !! key), environ).

Definition missing_env_message (key : string) : string :=
  "Missing required environment variable: " +:+ key +:+ nl
  +:+ "Please ensure your .env file contains " +:+ key +:+ "=your_value".

(** [not value] holds for [None] and for the empty string. *)
Definition _get_required_env (key : string) : Eff Environ string :=
  value <- getenv key ;;
  match value with
  | Some (String c v) => ret (String c v)
  | _ => raise (ValueError (missing_env_message key))
  end.

Record Settings : Type := mkSettings {
  supabase_url : string;
  supabase_key : string;
  gemini_api_key : string;
  debug : bool
}.

(** [Settings.__init__] *)
Definition Settings_init : Eff Environ Settings :=
  supabase_url <- _get_required_env "SUPABASE_URL" ;;
  supabase_key <- _get_required_env "SUPABASE_KEY" ;;
  gemini_api_key <- _get_required_env "GEMINI_API_KEY" ;;
  debug_value <- getenv "DEBUG" ;;
  ret (mkSettings supabase_url supabase_key gemini_api_key
         (String.eqb (lower (default "False" debug_value)) "true")).

Definition required_variables : list string :=
  ["SUPABASE_URL"; "SUPABASE_KEY"; "GEMINI_API_KEY"].

(** The variable is set, to a value that is not empty. *)
Definition is_set (environ : Environ) (key : string) : Prop :=
  exists c v, environ !! key = Some (String c v).

(** ** The chat page (src/app.py), lines 133-206 *)

(** The ['debug_info'] of an entry of the transcript. *)
Record DebugInfo : Type := mkDebugInfo {
  dbg_iterations : Z;
  dbg_tool_calls_made : list ToolRecord
}.

(** An entry of [st.session_state.messages]. *)
Record ChatEntry : Type := mkChatEntry {
  entry_role : string;
  entry_content : string;
  entry_debug_info : option DebugInfo
}.

(** What the page shows: a chat message, the debug expander, an error box. *)
Inductive UiEvent : Type :=
| UiMarkdown (role content : string)
| UiDebug (iterations : Z) (tools_used : list ToolCall)
| UiError (message : string).

Record Session (E : Type) : Type := mkSession {
  session_messages : list ChatEntry;
  session_show_debug : bool;
  session_ui : list UiEvent;
  session_py : PyState E
}.
Arguments mkSession {E} _ _ _ _.
Arguments session_messages {E} _.
Arguments session_show_debug {E} _.
Arguments session_ui {E} _.
Arguments session_py {E} _.

(** [l[-n:]] for a positive [n]. *)
Definition last_n {A} (n : nat) (l : list A) : list A :=
  drop (length l - n) l.

(** Lines 154-159: an entry of the transcript goes into the history when its
    role is user or assistant, without its debug information. *)
Definition history_entry (msg : ChatEntry) : list Message :=
  if String.eqb (entry_role msg) "user" || String.eqb (entry_role msg) "assistant"
  then [mkMessage (entry_role msg) (entry_content msg)]
  else [].

Section App.
Context {E : Type} {llm : BaseLLM E}.
(** The text of [SYSTEM_PROMPT] in src/llm/tools.py. *)
Variable SYSTEM_PROMPT : string.

(** Lines 149-159. *)
Definition conversation_history (messages : list ChatEntry) : list Message :=
  mkMessage "system" SYSTEM_PROMPT :: flat_map history_entry (last_n 10 messages).

(** Lines 133-206.  The history handed to [chat_with_tools] is the slice
    [conversation_history[:-1]], a new list object. *)
Definition process_user_input (user_input : option string) (ss : Session E)
  : option (Session E) :=
  match user_input with
  | None | Some EmptyString => Some ss
  | Some user_input =>
      let messages :=
        session_messages ss ++ [mkChatEntry "user" user_input None] in
      let ui := session_ui ss ++ [UiMarkdown "user" user_input] in
      let history := conversation_history messages in
      match (slice <- heap_alloc (removelast history) ;;>
             chat_with_tools user_input (Some slice) (Some GEMINI_TOOLS) 5)
              (session_py ss) with
      | None => None
      | Some (Ret result, py) =>
          let response_text := response result in
          let shown :=
            if session_show_debug ss
            then [UiDebug (iterations result)
                          (map request_of (tool_calls_made result))]
            else [] in
          Some (mkSession
                  (messages ++
                   [mkChatEntry "assistant" response_text
                      (Some (mkDebugInfo (iterations result)
                                         (tool_calls_made result)))])
                  (session_show_debug ss)
                  (ui ++ UiMarkdown "assistant" response_text :: shown)
                  py)
      | Some (Raise e, py) =>
          let error_message := "❌ Error: " +:+ exc_str e in
          Some (mkSession
                  (messages ++ [mkChatEntry "assistant" error_message None])
                  (session_show_debug ss)
                  (ui ++ [UiError error_message])
                  py)
      end
  end.
End App.

(** ** More concrete providers and states *)

(** A stub provider that asks for two tools and whose tools fail. *)
#[local] Instance Faulty : BaseLLM unit := {|
  chat _ _ := ret (mkResponse None (Some two_calls));
  execute_tool_call _ _ := raise network_down;
  format_tool_response _ _ := ret "ok"
|}.

(** A page with one earlier exchange, in front of the logged stub provider
    that asks for two tools and then answers. *)
Definition page_state : Session (list Response * list Event) :=
  mkSession
    [mkChatEntry "user" "hello" None;
     mkChatEntry "assistant" "Hi, how can I help?" (Some (mkDebugInfo 1 []))]
    true [] scripted_state.

(** The same page in front of the stub provider whose tools fail. *)
Definition faulty_page : Session unit :=
  mkSession
    [mkChatEntry "user" "hello" None;
     mkChatEntry "assistant" "Hi, how can I help?" (Some (mkDebugInfo 1 []))]
    true [] (mkPyState [] tt).

(** An environment in which only the first required variable is set. *)
Definition partial_environ : Environ :=
  {[ "SUPABASE_URL" := "https://example.supabase.co" ]}.

(** The name and the result of a record. *)
Definition shown_of (r : ToolRecord) : string * PyVal := (rec_name r, rec_result r).

(** The tool results handed to [format_tool_response], each with the name of
    its tool, in the order of the calls. *)
Fixpoint rendered (t : list Event) : list (string * PyVal) :=
  match t with
  | [] => []
  | EvFormat n v _ :: t' => (n, v) :: rendered t'
  | _ :: t' => rendered t'
  end.

(** * Properties *)

(** ** Reasoning about computations *)

Lemma bind_inv {S A B} (c : Eff S A) (k : A -> Eff S B) s o s' :
  bind c k s = (o, s') ->
  (exists a s1, c s = (Ret a, s1) /\ k a s1 = (o, s')) \/
  (exists e, c s = (Raise e, s') /\ o = Raise e).
Proof.
  unfold bind. destruct (c s) as [[a|e] s1]; intros H.
  - left. eauto.
  - right. inversion H; subst. eauto.
Qed.

Lemma and_then_inv {S A B} (c : Eff S A) (k : A -> Fueled S B) s o s' :
  and_then c k s = Some (o, s') ->
  (exists a s1, c s = (Ret a, s1) /\ k a s1 = Some (o, s')) \/
  (exists e, c s = (Raise e, s') /\ o = Raise e).
Proof.
  unfold and_then. destruct (c s) as [[a|e] s1]; intros H.
  - left. eauto.
  - right. inversion H; subst. eauto.
Qed.

Lemma lift_logged_inv {E A} (c : Eff E A) (ev : outcome A -> Event)
    (s : PyState (E * list Event)) o s' :
  lift (logged c ev) s = (o, s') ->
  exists e', c (fst (py_env s)) = (o, e') /\
             s' = mkPyState (py_heap s) (e', trace_of s ++ [ev o]).
Proof.
  unfold lift, logged, trace_of. destruct (c (py_env s).1) as [o1 e1].
  intros H. inversion H; subst. eauto.
Qed.

Lemma lift_inv {E A} (c : Eff E A) (s : PyState E) o s' :
  lift c s = (o, s') ->
  exists e', c (py_env s) = (o, e') /\ s' = mkPyState (py_heap s) e'.
Proof.
  unfold lift. destruct (c (py_env s)) as [o1 e1]. intros [= <- <-]. eauto.
Qed.

(** ** The message lists only grow *)

Lemma heap_extends_refl p h : heap_extends p h h.
Proof.
  split; [reflexivity|]. intros q l Hq. exists []. now rewrite app_nil_r.
Qed.

Lemma heap_extends_trans p h1 h2 h3 :
  heap_extends p h1 h2 -> heap_extends p h2 h3 -> heap_extends p h1 h3.
Proof.
  intros [Hlen12 H12] [Hlen23 H23]. split; [congruence|].
  intros q l Hq. destruct (H12 q l Hq) as (a1 & Hq2 & Hne1).
  destruct (H23 q _ Hq2) as (a2 & Hq3 & Hne2).
  exists (a1 ++ a2). rewrite app_assoc. split; [exact Hq3|].
  intros Hqp. now rewrite (Hne1 Hqp), (Hne2 Hqp).
Qed.

Lemma heap_extends_append p m (h : list (list Message)) :
  heap_extends p h (alter (fun l => l ++ [m]) p h).
Proof.
  split; [apply length_alter|].
  intros q l Hq. destruct (decide (q = p)) as [->|Hne].
  - exists [m]. rewrite list_lookup_alter_eq. rewrite Hq. split; [reflexivity|congruence].
  - exists []. rewrite list_lookup_alter_ne, app_nil_r by congruence. auto.
Qed.

Section Runs.
Context {E : Type} {llm : BaseLLM E}.

Lemma exec_tool_calls_heap (p : loc) (calls : list ToolCall) :
  forall made (s : PyState E) o s',
    exec_tool_calls p calls made s = (o, s') ->
    heap_extends p (py_heap s) (py_heap s').
Proof.
  induction calls as [|c calls IH]; intros made s o s' Hrun.
  - inversion Hrun; subst. apply heap_extends_refl.
  - cbn [exec_tool_calls] in Hrun.
    apply bind_inv in Hrun as [(v & s1 & Hexec & Hrun)|(e & Hexec & ->)];
      apply lift_inv in Hexec as (e1 & _ & ->); [|apply heap_extends_refl].
    apply bind_inv in Hrun as [(f & s2 & Hfmt & Hrun)|(e & Hfmt & ->)];
      apply lift_inv in Hfmt as (e2 & _ & ->); [|apply heap_extends_refl].
    unfold bind, heap_append in Hrun. cbn [py_heap py_env] in Hrun.
    apply IH in Hrun. cbn [py_heap] in Hrun.
    eapply heap_extends_trans; [|exact Hrun].
    eapply heap_extends_trans; apply heap_extends_append.
Qed.

Lemma chat_loop_unfold fuel p tools max made it :
  chat_loop (S fuel) p tools max made it =
  if it <? max then
    (msgs <- heap_read p ;;>
     resp <- lift (chat msgs tools) ;;>
     match requested_calls resp with
     | [] => finish (mkResult (default "" (resp_content resp)) made (it + 1) None)
     | calls =>
         made' <- exec_tool_calls p calls made ;;>
         chat_loop fuel p tools max made' (it + 1)
     end)
  else finish (mkResult fallback_response made it (Some "max_iterations_reached")).
Proof. reflexivity. Qed.

Lemma chat_loop_heap (p : loc) (tools : option (list ToolDef)) (max : Z) :
  forall fuel made it (s : PyState E) o s',
    chat_loop fuel p tools max made it s = Some (o, s') ->
    heap_extends p (py_heap s) (py_heap s').
Proof.
  induction fuel as [|fuel IH]; intros made it s o s' Hrun;
    [simpl in Hrun|rewrite chat_loop_unfold in Hrun];
    destruct (it <? max); try discriminate;
    try (inversion Hrun; subst; apply heap_extends_refl).
  apply and_then_inv in Hrun as [(msgs & s0 & [= <- <-] & Hrun)|(e & [=] & _)].
  apply and_then_inv in Hrun as [(resp & s1 & Hchat & Hrun)|(e & Hchat & ->)];
    apply lift_inv in Hchat as (e1 & _ & ->); [|apply heap_extends_refl].
  destruct (requested_calls resp) as [|c calls].
  { inversion Hrun; subst. apply heap_extends_refl. }
  apply and_then_inv in Hrun as [(made1 & s2 & Hexec & Hrun)|(e & Hexec & ->)];
    apply exec_tool_calls_heap in Hexec; cbn [py_heap] in Hexec; [|exact Hexec].
  eapply heap_extends_trans; [exact Hexec|]. eapply IH, Hrun.
Qed.

(** The lines before the loop: which list [messages] names, and what the
    store holds when the loop starts. *)
Lemma chat_with_tools_prelude (user_message : string) (h : option loc)
    (tools : option (list ToolDef)) (max : Z) (s : PyState E) :
  exists p s1,
    chat_with_tools user_message h tools max s =
      chat_loop (Z.to_nat max) p tools max [] 0 s1 /\
    py_env s1 = py_env s /\
    ((exists m l, h = Some p /\ py_heap s !! p = Some (m :: l) /\
        py_heap s1 = alter (fun l => l ++ [mkMessage "user" user_message]) p (py_heap s))
     \/
     (p = length (py_heap s) /\
      (forall q, h = Some q -> default [] (py_heap s !! q) = []) /\
      py_heap s1 = py_heap s ++ [[mkMessage "user" user_message]])).
Proof.
  assert (Hnew : forall s0 : PyState E,
    (heap_append (length (py_heap s0)) (mkMessage "user" user_message)
       (mkPyState (py_heap s0 ++ [[]]) (py_env s0))) =
    (Ret tt, mkPyState (py_heap s0 ++ [[mkMessage "user" user_message]]) (py_env s0))).
  { intros s0. unfold heap_append. cbn [py_heap py_env]. do 2 f_equal.
    rewrite <- (Nat.add_0_r (length (py_heap s0))), alter_app_r. reflexivity. }
  unfold chat_with_tools, history_or_new.
  destruct h as [q|].
  - destruct (py_heap s !! q) as [[|m l]|] eqn:Hq.
    + eexists _, _. split.
      { unfold and_then at 1, bind, heap_read, heap_alloc. rewrite Hq. simpl.
        unfold and_then at 1. rewrite Hnew. reflexivity. }
      split; [reflexivity|]. right. split; [reflexivity|].
      split; [|reflexivity]. intros ? [= <-]. now rewrite Hq.
    + eexists q, _. split.
      { unfold and_then at 1, bind, heap_read, ret. rewrite Hq. simpl.
        unfold and_then at 1, heap_append. reflexivity. }
      split; [reflexivity|]. left. exists m, l. auto.
    + eexists _, _. split.
      { unfold and_then at 1, bind, heap_read, heap_alloc. rewrite Hq. simpl.
        unfold and_then at 1. rewrite Hnew. reflexivity. }
      split; [reflexivity|]. right. split; [reflexivity|].
      split; [|reflexivity]. intros ? [= <-]. now rewrite Hq.
  - eexists _, _. split.
    { unfold and_then at 1, heap_alloc.
      unfold and_then at 1. rewrite Hnew. reflexivity. }
    split; [reflexivity|]. right. split; [reflexivity|].
    split; [|reflexivity]. discriminate.
Qed.

(** A run only appends, and only to the list it works on: every list that
    existed before the run keeps its messages as a prefix, the caller's
    non-empty history gains the user message first, and every other list is
    left as it was. *)
Lemma chat_with_tools_only_appends
    (user_message : string) (h : option loc) (tools : option (list ToolDef))
    (max_iterations : Z) (s : PyState E) (o : outcome Result) (s' : PyState E)
    (q : loc) (old : list Message) :
  chat_with_tools user_message h tools max_iterations s = Some (o, s') ->
  py_heap s !! q = Some old ->
  exists added,
    py_heap s' !! q = Some (old ++ added) /\
    (h = Some q /\ old <> [] ->
     exists rest, added = mkMessage "user" user_message :: rest) /\
    (h <> Some q \/ old = [] -> added = []).
Proof.
  intros Hrun Hq.
  destruct (chat_with_tools_prelude user_message h tools max_iterations s)
    as (p & s1 & Heq & _ & Hheap).
  rewrite Heq in Hrun. apply chat_loop_heap in Hrun as [_ Hext].
  destruct Hheap as [(m & l & -> & Hp & Hs1)|(-> & Hempty & Hs1)].
  - destruct (decide (q = p)) as [->|Hne].
    + assert (old = m :: l) as -> by congruence.
      destruct (Hext p ((m :: l) ++ [mkMessage "user" user_message]))
        as (added & Hq' & _).
      { rewrite Hs1, list_lookup_alter_eq, Hp. reflexivity. }
      exists (mkMessage "user" user_message :: added).
      split; [rewrite Hq', <- app_assoc; reflexivity|].
      split; [eauto|]. intros [Hh|Hnil]; congruence.
    + destruct (Hext q old) as (added & Hq' & Hnone).
      { rewrite Hs1, list_lookup_alter_ne by congruence. exact Hq. }
      rewrite (Hnone Hne) in *. exists [].
      split; [exact Hq'|]. split; [|reflexivity].
      intros [[= ->] _]. congruence.
  - assert (Hlt : (q < length (py_heap s))%nat) by (eapply lookup_lt_Some, Hq).
    destruct (Hext q old) as (added & Hq' & Hnone).
    { rewrite Hs1, lookup_app_l by exact Hlt. exact Hq. }
    rewrite (Hnone ltac:(lia)) in *. exists [].
    split; [exact Hq'|]. split; [|reflexivity].
    intros [Hh Hold]. apply Hempty in Hh. rewrite Hq in Hh. contradiction.
Qed.


Section WellBehaved.
(** A provider whose every response asks for a tool, and whose tool
    methods return. *)
Hypothesis chat_asks :
  forall m t e, exists resp e',
    chat m t e = (Ret resp, e') /\ requested_calls resp <> [].
Hypothesis execute_returns :
  forall n a e, exists v e', execute_tool_call n a e = (Ret v, e').
Hypothesis format_returns :
  forall n v e, exists f e', format_tool_response n v e = (Ret f, e').

Lemma exec_tool_calls_returns (p : loc) (calls : list ToolCall) :
  forall made (s : PyState E),
    exists made' s', exec_tool_calls p calls made s = (Ret made', s').
Proof.
  induction calls as [|c calls IH]; intros made s; [eexists _, _; reflexivity|].
  cbn [exec_tool_calls]. unfold bind at 1, lift at 1.
  destruct (execute_returns (tc_name c) (tc_arguments c) (py_env s))
    as (v & e1 & ->).
  unfold bind at 1, lift at 1. cbn [py_env].
  destruct (format_returns (tc_name c) v e1) as (f & e2 & ->).
  unfold bind, heap_append. apply IH.
Qed.

Lemma chat_loop_exhausts (p : loc) (tools : option (list ToolDef)) (max : Z) :
  forall fuel made it (s : PyState E),
    it <= max -> (Z.to_nat (max - it) <= fuel)%nat ->
    exists made' s',
      chat_loop fuel p tools max made it s =
      Some (Ret (mkResult fallback_response made' max
                          (Some "max_iterations_reached")), s').
Proof.
  induction fuel as [|fuel IH]; intros made it s Hle Hfuel.
  - simpl. destruct (Z.ltb_spec it max); [lia|].
    assert (it = max) as -> by lia. eexists _, _; reflexivity.
  - rewrite chat_loop_unfold. destruct (Z.ltb_spec it max).
    2:{ assert (it = max) as -> by lia. eexists _, _; reflexivity. }
    unfold and_then at 1, heap_read. unfold and_then at 1, lift at 1.
    destruct (chat_asks (default [] (py_heap s !! p)) tools (py_env s))
      as (resp & e1 & -> & Hreq).
    destruct (requested_calls resp) as [|c calls]; [contradiction|].
    unfold and_then.
    destruct (exec_tool_calls_returns p (c :: calls) made
                (mkPyState (py_heap s) e1)) as (made1 & s2 & ->).
    apply IH; lia.
Qed.

(** C3. For [max_iterations >= 1], if every response of the provider asks
    for at least one tool, [chat_with_tools] returns the exhausted
    result: [iterations] is [max_iterations], the ['error'] key is set,
    and the final text is the fallback message, not a content of the
    provider. *)
Theorem insatiable_provider_exhausts_budget
    (user_message : string) (h : option loc) (tools : option (list ToolDef))
    (max_iterations : Z) (s : PyState E) :
  1 <= max_iterations ->
  exists made s',
    chat_with_tools user_message h tools max_iterations s =
    Some (Ret (mkResult fallback_response made max_iterations
                        (Some "max_iterations_reached")), s').
Proof.
  intros Hmax.
  destruct (chat_with_tools_prelude user_message h tools max_iterations s)
    as (p & s1 & -> & _).
  apply chat_loop_exhausts; [lia|]. rewrite Z.sub_0_r. reflexivity.
Qed.
End WellBehaved.
End Runs.

Section TracedRuns.
Context {E : Type} (llm : BaseLLM E).

Lemma chat_calls_app (t u : list Event) :
  chat_calls (t ++ u) = (chat_calls t + chat_calls u)%nat.
Proof. induction t as [|[] t IH]; simpl; lia. Qed.

Lemma chat_responses_app (t u : list Event) :
  chat_responses (t ++ u) = chat_responses t ++ chat_responses u.
Proof.
  induction t as [|[? ? []| |] t IH]; simpl; rewrite ?IH; reflexivity.
Qed.

Lemma emitted_app (t u : list Event) : emitted (t ++ u) = emitted t ++ emitted u.
Proof. unfold emitted. rewrite chat_responses_app. apply flat_map_app. Qed.

Lemma executed_app (t u : list Event) : executed (t ++ u) = executed t ++ executed u.
Proof.
  induction t as [|[| ? ? []|] t IH]; simpl; rewrite ?IH; reflexivity.
Qed.

(** What one pass over the tool requests of a response adds to the log. *)
Lemma exec_tool_calls_traced (p : loc) (calls : list ToolCall) :
  forall made s o s',
    exec_tool_calls (llm := Traced llm) p calls made s = (o, s') ->
    exists ev,
      trace_of s' = trace_of s ++ ev /\
      chat_calls ev = O /\
      chat_responses ev = [] /\
      forall made', o = Ret made' ->
        made' = made ++ executed ev /\ map request_of (executed ev) = calls.
Proof.
  induction calls as [|c calls IH]; intros made s o s' Hrun.
  - inversion Hrun; subst. exists []. rewrite app_nil_r.
    repeat split; auto. all: inversion H; subst; now rewrite ?app_nil_r.
  - cbn [exec_tool_calls] in Hrun.
    apply bind_inv in Hrun as [(v & s1 & Hexec & Hrun)|(e & Hexec & ->)];
      apply lift_logged_inv in Hexec as (e1 & _ & ->).
    2:{ eexists; split; [reflexivity|]. repeat split; auto; discriminate. }
    apply bind_inv in Hrun as [(f & s2 & Hfmt & Hrun)|(e & Hfmt & ->)];
      apply lift_logged_inv in Hfmt as (e2 & _ & ->).
    2:{ eexists; split; [unfold trace_of; simpl; rewrite <- app_assoc; reflexivity|].
        repeat split; auto; discriminate. }
    unfold bind, heap_append in Hrun. cbn [fst snd py_heap py_env] in Hrun.
    apply IH in Hrun as (ev & Htr & Hc & Hr & Hmade).
    exists (EvExec (tc_name c) (tc_arguments c) (Ret v)
              :: EvFormat (tc_name c) v (Ret f) :: ev).
    split.
    { rewrite Htr. unfold trace_of. simpl. rewrite <- !app_assoc. reflexivity. }
    repeat split; auto.
    + apply Hmade in H as [-> _]. simpl. rewrite <- app_assoc. reflexivity.
    + apply Hmade in H as [_ <-]. destruct c; reflexivity.
Qed.

Lemma chat_calls_0_responses (t : list Event) :
  chat_calls t = O -> chat_responses t = [].
Proof. induction t as [|[] t IH]; simpl; auto; discriminate. Qed.

(** Logging does not change what the program does. *)

Lemma lift_logged_erase {A} (c : Eff E A) (ev : outcome A -> Event) s :
  erase_run (lift (logged c ev) s) = lift c (erase s).
Proof.
  unfold erase_run, lift, logged, erase. cbn [py_env py_heap fst snd].
  destruct (c (py_env s).1) as [o e1]. reflexivity.
Qed.

Lemma lift_chat_erase m t s :
  erase_run (lift (chat (BaseLLM := Traced llm) m t) s) =
  lift (chat (BaseLLM := llm) m t) (erase s).
Proof. apply lift_logged_erase. Qed.

Lemma lift_execute_erase n a s :
  erase_run (lift (execute_tool_call (BaseLLM := Traced llm) n a) s) =
  lift (execute_tool_call (BaseLLM := llm) n a) (erase s).
Proof. apply lift_logged_erase. Qed.

Lemma lift_format_erase n v s :
  erase_run (lift (format_tool_response (BaseLLM := Traced llm) n v) s) =
  lift (format_tool_response (BaseLLM := llm) n v) (erase s).
Proof. apply lift_logged_erase. Qed.

Lemma exec_tool_calls_erase (p : loc) (calls : list ToolCall) :
  forall made s,
    erase_run (exec_tool_calls (llm := Traced llm) p calls made s) =
    exec_tool_calls (llm := llm) p calls made (erase s).
Proof.
  induction calls as [|c calls IH]; intros made s; [reflexivity|].
  cbn [exec_tool_calls]. unfold bind at 1 5.
  rewrite <- lift_execute_erase.
  destruct (lift (execute_tool_call _ _) s) as [[v|e] s1]; [|reflexivity].
  cbn [erase_run fst snd]. unfold bind at 1 4.
  rewrite <- lift_format_erase.
  destruct (lift (format_tool_response _ _) s1) as [[f|e] s2]; [|reflexivity].
  cbn [erase_run fst snd]. unfold bind, heap_append. rewrite IH. reflexivity.
Qed.

Lemma chat_loop_erase (p : loc) (tools : option (list ToolDef)) (max : Z) :
  forall fuel made it s,
    option_map erase_run (chat_loop (llm := Traced llm) fuel p tools max made it s) =
    chat_loop (llm := llm) fuel p tools max made it (erase s).
Proof.
  induction fuel as [|fuel IH]; intros made it s.
  - simpl. destruct (it <? max); reflexivity.
  - rewrite !chat_loop_unfold. destruct (it <? max); [|reflexivity].
    unfold and_then at 1 4, heap_read. cbn [erase py_heap].
    unfold and_then at 1 3.
    change (mkPyState (py_heap s) (py_env s).1) with (erase s).
    rewrite <- lift_chat_erase.
    destruct (lift (chat _ _) s) as [[resp|e] s1]; [|reflexivity].
    cbn [erase_run fst snd].
    destruct (requested_calls resp) as [|c calls]; [reflexivity|].
    unfold and_then. rewrite <- exec_tool_calls_erase.
    destruct (exec_tool_calls p (c :: calls) made s1) as [[made1|e] s2];
      [|reflexivity].
    cbn [erase_run fst snd]. apply IH.
Qed.

Lemma traced_chat_with_tools_erase user_message h tools max s :
  option_map erase_run
    (chat_with_tools (llm := Traced llm) user_message h tools max s) =
  chat_with_tools (llm := llm) user_message h tools max (erase s).
Proof.
  unfold chat_with_tools, history_or_new, and_then, bind, heap_read, heap_alloc,
    heap_append, ret.
  unfold erase.
  destruct h as [q|]; simpl; [destruct (default [] (py_heap s !! q))|];
    (etransitivity; [apply chat_loop_erase|reflexivity]).
Qed.

Lemma chat_loop_traced (p : loc) (tools : option (list ToolDef)) (max : Z) :
  forall fuel made it s,
    (Z.to_nat (max - it) <= fuel)%nat ->
    exists o s' ev,
      chat_loop (llm := Traced llm) fuel p tools max made it s = Some (o, s') /\
      trace_of s' = trace_of s ++ ev /\
      (chat_calls ev <= Z.to_nat (max - it))%nat /\
      forall r, o = Ret r -> describes max it made ev r.
Proof.
  unfold describes.
  induction fuel as [|fuel IH]; intros made it s Hfuel.
  - simpl. destruct (Z.ltb_spec it max) as [Hlt|Hge]; [lia|].
    eexists _, s, []. rewrite !app_nil_r.
    split; [reflexivity|]. split; [reflexivity|]. split; [simpl; lia|].
    intros r [= <-]; simpl.
    repeat split; auto; lia.
  - rewrite chat_loop_unfold. destruct (Z.ltb_spec it max) as [Hlt|Hge].
    2:{ eexists _, s, []. rewrite !app_nil_r.
        split; [reflexivity|]. split; [reflexivity|]. split; [simpl; lia|].
        intros r [= <-]; simpl.
        repeat split; auto; lia. }
    unfold and_then at 1. unfold heap_read at 1.
    set (msgs := default [] (py_heap s !! p)).
    unfold and_then at 1.
    destruct (lift (chat msgs tools) s) as [o1 s1] eqn:Hchat.
    apply lift_logged_inv in Hchat as (e1 & _ & ->).
    destruct o1 as [resp|e].
    2:{ eexists _, _, [_]. split; [reflexivity|]. split; [reflexivity|].
        split; [simpl; lia|]. discriminate. }
    destruct (requested_calls resp) as [|c calls] eqn:Hreq.
    { eexists _, _, [_]. split; [reflexivity|]. split; [reflexivity|].
      split; [simpl; lia|].
      intros r [= <-]; simpl. unfold emitted. simpl. rewrite Hreq, app_nil_r.
      repeat split; auto. exists [], msgs, tools, resp. auto. }
    unfold and_then at 1.
    destruct (exec_tool_calls p (c :: calls) made _) as [o2 s2] eqn:Hexec.
    apply exec_tool_calls_traced in Hexec as (ev1 & Htr1 & Hc1 & Hr1 & Hmade1).
    unfold trace_of in Htr1 at 2; cbn [py_env snd] in Htr1.
    destruct o2 as [made1|e].
    2:{ eexists _, _, (_ :: ev1). split; [reflexivity|].
        split; [rewrite Htr1, <- app_assoc; reflexivity|].
        split; [simpl; lia|]. discriminate. }
    destruct (Hmade1 made1 eq_refl) as [-> Hcalls].
    destruct (IH (made ++ executed ev1) (it + 1) s2) as (o & s' & ev2 & Hrun & Htr2 & Hc2 & Hres);
      [lia|].
    exists o, s', (EvChat msgs tools (Ret resp) :: ev1 ++ ev2).
    split; [exact Hrun|].
    split; [rewrite Htr2, Htr1, <- !app_assoc; reflexivity|].
    split; [simpl; rewrite chat_calls_app; lia|].
    intros r Hr. destruct (Hres r Hr) as (Hmade & Hem & Hit & Herr).
    cbn [executed chat_calls]. rewrite executed_app, chat_calls_app, Hc1.
    split; [rewrite Hmade, app_assoc; reflexivity|].
    split.
    { unfold emitted. cbn [chat_responses flat_map].
      rewrite chat_responses_app, Hr1, Hreq, map_app, Hcalls. simpl.
      do 2 f_equal. exact Hem. }
    split; [lia|].
    destruct (error r) as [err|].
    + destruct Herr as (-> & Hresp & Hcnt & Hlast).
      split; [reflexivity|]. split; [exact Hresp|]. split; [lia|].
      intros _. destruct (Z.lt_ge_cases (it + 1) max) as [Hmore|Hlast_it].
      * destruct (Hlast Hmore) as (ev0 & m & t & resp' & evs & -> & H1 & H2 & H3).
        exists (EvChat msgs tools (Ret resp) :: ev1 ++ ev0), m, t, resp', evs.
        split; [simpl; rewrite <- app_assoc; reflexivity|]. auto.
      * exists [], msgs, tools, resp, (ev1 ++ ev2).
        split; [reflexivity|].
        assert (Hz : chat_calls ev2 = O) by lia.
        split; [rewrite chat_calls_app; lia|].
        split; [rewrite Hreq; discriminate|].
        rewrite executed_app, map_app, Hcalls, Hem. unfold emitted.
        rewrite (chat_calls_0_responses _ Hz), Hreq. simpl.
        now rewrite app_nil_r.
    + destruct Herr as (ev0 & m & t & resp' & -> & H1 & H2).
      exists (EvChat msgs tools (Ret resp) :: ev1 ++ ev0), m, t, resp'.
      split; [simpl; rewrite <- app_assoc; reflexivity|]. auto.
Qed.

Lemma chat_with_tools_traced user_message h tools max s :
  exists o s' ev,
    chat_with_tools (llm := Traced llm) user_message h tools max s = Some (o, s') /\
    trace_of s' = trace_of s ++ ev /\
    (chat_calls ev <= Z.to_nat max)%nat /\
    forall r, o = Ret r -> describes max 0 [] ev r.
Proof.
  destruct (chat_with_tools_prelude (llm := Traced llm) user_message h tools max s)
    as (p & s1 & -> & Henv & _).
  destruct (chat_loop_traced p tools max (Z.to_nat max) [] 0 s1)
    as (o & s' & ev & Hrun & Htr & Hcalls & Hres);
    [rewrite Z.sub_0_r; reflexivity|].
  exists o, s', ev. split; [exact Hrun|].
  unfold trace_of in *. rewrite <- Henv.
  rewrite Z.sub_0_r in Hcalls. auto.
Qed.

(** C1. For every [max_iterations >= 1], every history and every behaviour
    of the provider, [chat_with_tools] terminates, having called [chat] at
    most [max_iterations] times, and [iterations] in the returned result
    does not exceed [max_iterations]. *)
Theorem chat_with_tools_terminates_within_budget
    (user_message : string) (h : option loc) (tools : option (list ToolDef))
    (max_iterations : Z) (s : PyState (E * list Event)) :
  1 <= max_iterations ->
  exists o s' ev,
    chat_with_tools (llm := Traced llm) user_message h tools max_iterations s
      = Some (o, s') /\
    chat_with_tools (llm := llm) user_message h tools max_iterations (erase s)
      = Some (o, erase s') /\
    trace_of s' = trace_of s ++ ev /\
    Z.of_nat (chat_calls ev) <= max_iterations /\
    forall r, o = Ret r -> iterations r <= max_iterations.
Proof.
  intros Hmax.
  destruct (chat_with_tools_traced user_message h tools max_iterations s)
    as (o & s' & ev & Hrun & Htr & Hcalls & Hres).
  exists o, s', ev. split; [exact Hrun|].
  split; [rewrite <- traced_chat_with_tools_erase, Hrun; reflexivity|].
  split; [exact Htr|]. split; [lia|].
  intros r Hr. destruct (Hres r Hr) as (_ & _ & Hit & _). lia.
Qed.

(** C2. In the result of a run, [tool_calls_made] has one record for each
    tool request that the provider emitted, over all iterations, in
    emission order; each record carries the name and the arguments of its
    request and the result that [execute_tool_call] returned for it. *)
Theorem tool_calls_made_follows_emission
    (user_message : string) (h : option loc) (tools : option (list ToolDef))
    (max_iterations : Z) (s : PyState (E * list Event)) (r : Result)
    (s' : PyState (E * list Event)) :
  chat_with_tools (llm := Traced llm) user_message h tools max_iterations s
    = Some (Ret r, s') ->
  exists ev,
    trace_of s' = trace_of s ++ ev /\
    length (tool_calls_made r) = length (emitted ev) /\
    map request_of (tool_calls_made r) = emitted ev /\
    tool_calls_made r = executed ev.
Proof.
  intros Hrun.
  destruct (chat_with_tools_traced user_message h tools max_iterations s)
    as (o & s1 & ev & Hrun' & Htr & _ & Hres).
  rewrite Hrun in Hrun'. injection Hrun' as <- <-.
  destruct (Hres r eq_refl) as (Hmade & Hem & _).
  rewrite app_nil_l in Hmade. exists ev. rewrite Hmade.
  split; [exact Htr|]. split; [|auto].
  rewrite <- Hem. now rewrite length_map.
Qed.

(** C4, amended.  In the result of a run that was not exhausted, the final
    text is the content of the response that the provider gave last, or the
    empty string when that response has no content: it is empty when the
    provider's content is.  In the result of an exhausted run, the final
    text is the fixed fallback message, which is not empty. *)
Theorem final_text_is_last_content_or_fallback
    (user_message : string) (h : option loc) (tools : option (list ToolDef))
    (max_iterations : Z) (s : PyState (E * list Event)) (r : Result)
    (s' : PyState (E * list Event)) :
  chat_with_tools (llm := Traced llm) user_message h tools max_iterations s
    = Some (Ret r, s') ->
  match error r with
  | None =>
      exists ev0 m t resp,
        trace_of s' = trace_of s ++ ev0 ++ [EvChat m t (Ret resp)] /\
        response r = default "" (resp_content resp)
  | Some _ => response r = fallback_response /\ response r <> ""
  end.
Proof.
  intros Hrun.
  destruct (chat_with_tools_traced user_message h tools max_iterations s)
    as (o & s1 & ev & Hrun' & Htr & _ & Hres).
  rewrite Hrun in Hrun'. injection Hrun' as <- <-.
  destruct (Hres r eq_refl) as (_ & _ & _ & Herr).
  destruct (error r) as [err|].
  - destruct Herr as (_ & -> & _). split; [reflexivity|discriminate].
  - destruct Herr as (ev0 & m & t & resp & -> & _ & Hresp).
    exists ev0, m, t, resp. auto.
Qed.

(** C10. For [max_iterations >= 1], in an exhausted run the response of the
    last iteration asked for tools; these requests were executed and are
    the last records of [tool_calls_made], although no call of [chat]
    follows them.  The records cover the requests of all [max_iterations]
    iterations. *)
Theorem exhausted_run_records_last_iteration
    (user_message : string) (h : option loc) (tools : option (list ToolDef))
    (max_iterations : Z) (s : PyState (E * list Event)) (r : Result)
    (s' : PyState (E * list Event)) :
  1 <= max_iterations ->
  chat_with_tools (llm := Traced llm) user_message h tools max_iterations s
    = Some (Ret r, s') ->
  error r = Some "max_iterations_reached" ->
  exists ev0 m t resp evs,
    trace_of s' = trace_of s ++ ev0 ++ EvChat m t (Ret resp) :: evs /\
    Z.of_nat (chat_calls ev0) = max_iterations - 1 /\
    chat_calls evs = O /\
    requested_calls resp <> [] /\
    map request_of (executed evs) = requested_calls resp /\
    tool_calls_made r = executed ev0 ++ executed evs /\
    map request_of (tool_calls_made r) = emitted ev0 ++ requested_calls resp.
Proof.
  intros Hmax Hrun Hexh.
  destruct (chat_with_tools_traced user_message h tools max_iterations s)
    as (o & s1 & ev & Hrun' & Htr & _ & Hres).
  rewrite Hrun in Hrun'. injection Hrun' as <- <-.
  destruct (Hres r eq_refl) as (Hmade & Hem & _ & Herr).
  rewrite Hexh in Herr. destruct Herr as (_ & _ & Hcnt & Hlast).
  destruct Hlast as (ev0 & m & t & resp & evs & -> & Hevs & Hreq & Hrec); [lia|].
  exists ev0, m, t, resp, evs. split; [exact Htr|].
  rewrite chat_calls_app in Hcnt. cbn [chat_calls] in Hcnt.
  split; [lia|]. split; [exact Hevs|]. split; [exact Hreq|].
  split; [exact Hrec|].
  assert (Hex : executed (ev0 ++ EvChat m t (Ret resp) :: evs)
                = executed ev0 ++ executed evs)
    by (rewrite executed_app; reflexivity).
  rewrite app_nil_l, Hex in Hmade. split; [exact Hmade|].
  rewrite Hmade, <- Hex, Hem, emitted_app. f_equal.
  unfold emitted. cbn [chat_responses flat_map].
  rewrite (chat_calls_0_responses _ Hevs). simpl. apply app_nil_r.
Qed.
End TracedRuns.

(** ** The Gemini provider and the data access functions *)

Lemma try_except_returns {S A} (c : Eff S A) (h : Exc -> Eff S A) :
  (forall e s, exists a s', h e s = (Ret a, s')) ->
  forall s, exists a s', try_except c h s = (Ret a, s').
Proof.
  intros Hh s. unfold try_except. destruct (c s) as [[a|e] s1]; eauto.
Qed.

Lemma append_empty_r (s : string) : s +:+ "" = s.
Proof.
  induction s as [|a s IH]; [reflexivity|].
  change (String a s +:+ "") with (String a (s +:+ "")). now rewrite IH.
Qed.

Lemma contains_suffix (pre s : string) : contains (pre +:+ s) s.
Proof. exists pre, "". now rewrite append_empty_r. Qed.

Section GeminiProperties.
Context {P B : Type}.
Variable generate_content :
  string -> option (list Tool) -> string -> Eff P ProviderResponse.
Variable rpc : string -> Args -> Eff B PyVal.
Variable table_select : string -> string -> list (string * string) -> Eff B PyVal.
Variable py_int : PyVal -> outcome Z.
Variable py_str : PyVal -> string.
Variable json_dumps : PyVal -> string.
Variable format_exc : Exc -> string.
Variable self : GeminiLLM.

Local Abbreviation Env := (Env P B).
Local Abbreviation gemini :=
  (Gemini generate_content rpc py_int py_str json_dumps format_exc self).

(** The names in [tool_map] are the seven tools of the registry. *)
Lemma tool_map_names (tool_name : string) :
  tool_map (P := P) rpc py_int !! tool_name = None <->
  ~ In tool_name
      ["get_top_selling_products"; "get_trending_products";
       "search_products_by_description"; "get_low_stock_products";
       "get_sales_summary_by_category"; "get_product_details";
       "get_recent_transactions"].
Proof.
  unfold tool_map. rewrite <- not_elem_of_list_to_map, <- list_elem_of_In.
  reflexivity.
Qed.

(** C6. For a tool name that is not in [tool_map], whatever the arguments,
    [execute_tool_call] raises nothing and returns the error value
    [{"error": "Unknown tool: <name>"}], whose text contains the name. *)
Theorem unknown_tool_is_reported
    (tool_name : string) (tool_args : Args) (env : Env) :
  tool_map (P := P) rpc py_int !! tool_name = None ->
  gemini_execute_tool_call rpc py_int format_exc tool_name tool_args env
    = (Ret (VDict [("error", VStr ("Unknown tool: " +:+ tool_name))]), env) /\
  contains ("Unknown tool: " +:+ tool_name) tool_name.
Proof.
  intros Hunknown. split.
  - unfold gemini_execute_tool_call. rewrite Hunknown. reflexivity.
  - apply contains_suffix.
Qed.

(** C7. When the call of the hosted model raises, [chat] raises nothing: it
    returns the description of the error after the prefix ["Error: "],
    with an empty list of tool requests.  The loop of [chat_with_tools]
    then returns on that very turn, with this text as its final text. *)
Theorem provider_fault_becomes_error_turn
    (messages : list Message) (tools : option (list ToolDef)) (env : Env)
    (e : Exc) (p' : P) :
  generate_content (model_name self) (gemini_tools_of tools)
      (full_prompt messages) (provider env) = (Raise e, p') ->
  let env' := mkEnv (stdout env ++ ["Error in Gemini chat: " +:+ exc_str e;
                                     format_exc e]) p' (backend env) in
  gemini_chat generate_content format_exc self messages tools env
    = (Ret (mkResponse (Some ("Error: " +:+ exc_str e)) (Some [])), env') /\
  forall fuel p max_iterations made it heap,
    it < max_iterations ->
    default [] (heap !! p) = messages ->
    chat_loop (llm := gemini) (S fuel) p tools max_iterations made it
              (mkPyState heap env)
    = Some (Ret (mkResult ("Error: " +:+ exc_str e) made (it + 1) None),
            mkPyState heap env').
Proof.
  intros Hraise env'.
  assert (Hchat : gemini_chat generate_content format_exc self messages tools env
    = (Ret (mkResponse (Some ("Error: " +:+ exc_str e)) (Some [])), env')).
  { unfold gemini_chat, try_except, bind, on_provider. rewrite Hraise.
    unfold print, ret, env'. simpl. rewrite <- app_assoc. reflexivity. }
  split; [exact Hchat|].
  intros fuel p max_iterations made it heap Hlt Hmsgs.
  rewrite chat_loop_unfold. destruct (Z.ltb_spec it max_iterations); [|lia].
  unfold and_then at 1, heap_read. cbn [py_heap]. rewrite Hmsgs.
  unfold and_then, lift. cbn [py_env chat Gemini]. rewrite Hchat. reflexivity.
Qed.

(** Every data access function returns, whatever the backend does. *)
Lemma data_access_returns (c : DataAccessCall) (env : Env) :
  exists v env', run_call rpc table_select py_int c env = (Ret v, env').
Proof.
  destruct c; apply try_except_returns; intros e s; eexists _, _; reflexivity.
Qed.

(** C8. When the call of the backend raises, the data access function that
    made it catches the exception and returns an empty list, or [None] for
    [get_product_details] which returns a single record; it prints a line
    and lets nothing escape.  More generally a data access function never
    raises. *)
Theorem backend_fault_is_caught
    (c : DataAccessCall) (env : Env) (req : Eff B PyVal) (e : Exc) (b' : B) :
  backend_request rpc table_select py_int c = Some req ->
  req (backend env) = (Raise e, b') ->
  run_call rpc table_select py_int c env
    = (Ret (failure_value c),
       mkEnv (stdout env ++ [failure_line c e]) (provider env) b') /\
  forall env0 : Env, exists v env',
    run_call rpc table_select py_int c env0 = (Ret v, env').
Proof.
  intros Hreq Hraise. split; [|intros env0; apply data_access_returns].
  destruct c; simpl in Hreq;
    repeat match type of Hreq with
           | context [py_int ?x] => destruct (py_int x) eqn:?; simpl in Hreq
           end;
    try discriminate; injection Hreq as <-;
    cbn [run_call];
    unfold get_top_selling_products, get_trending_products,
      search_products_by_description, get_low_stock_products,
      get_sales_summary_by_category, get_product_details,
      get_recent_transactions, get_all_categories, get_category_products,
      try_except, bind, of_outcome, on_backend;
    repeat match goal with H : py_int _ = _ |- _ => rewrite H end;
    rewrite Hraise; reflexivity.
Qed.
End GeminiProperties.

(** ** The model at concrete inputs *)

(** The scenario of the specification: the user asks for the top selling
    wines, the model requests [get_top_selling_products], the rows come back
    and the second response of the model is the answer. *)
Example top_selling_wines_scenario :
  let request :=
    mkFunctionCall "get_top_selling_products"
      [("category", VStr "Wine"); ("limit", VInt 5); ("days", VInt 30)] in
  let script :=
    [Ret (mkProviderResponse [mkCandidate [mkPart (Some request) None]]);
     Ret (mkProviderResponse [mkCandidate [mkPart None (Some "Merlot sells best.")]])] in
  fst <$> chat_with_tools (llm := StubGemini)
            "What are the top 5 selling wines?" None None 5
            (gemini_state script true)
  = Some (Ret (mkResult "Merlot sells best."
                 [mkToolRecord "get_top_selling_products"
                    [("category", VStr "Wine"); ("limit", VInt 5); ("days", VInt 30)]
                    sample_rows]
                 2 None)).
Proof. vm_compute. reflexivity. Qed.

(** The scenario of a backend fault: [get_low_stock_products] returns [[]],
    nothing is raised, and the model is sent the text of an empty list. *)
Example backend_fault_scenario :
  let request := mkFunctionCall "get_low_stock_products" [] in
  let script :=
    [Ret (mkProviderResponse [mkCandidate [mkPart (Some request) None]])] in
  (fun x => (tool_calls_made <$> (match fst x with Ret r => Some r | Raise _ => None end),
             py_heap (snd x)))
    <$> chat_with_tools (llm := StubGemini) "What is low in stock?" None None 1
          (gemini_state script false)
  = Some (Some [mkToolRecord "get_low_stock_products" [] (VList [])],
          [[mkMessage "user" "What is low in stock?";
            mkMessage "assistant" "[Tool call: get_low_stock_products]";
            mkMessage "user" "[]"]]).
Proof. vm_compute. reflexivity. Qed.

(** ** The theorems at concrete inputs *)

Lemma chat_with_tools_terminates_within_budget_witness :
  1 <= 2 /\
  exists o s' ev,
    chat_with_tools (llm := Traced Insatiable) "hi" None None 2 insatiable_state
      = Some (o, s') /\
    chat_with_tools (llm := Insatiable) "hi" None None 2 (erase insatiable_state)
      = Some (o, erase s') /\
    trace_of s' = trace_of insatiable_state ++ ev /\
    Z.of_nat (chat_calls ev) <= 2 /\
    forall r, o = Ret r -> iterations r <= 2.
Proof.
  split; [lia|].
  apply (chat_with_tools_terminates_within_budget Insatiable "hi" None None 2
           insatiable_state).
  lia.
Defined.

Lemma tool_calls_made_follows_emission_witness :
  exists r s',
    chat_with_tools (llm := Traced Scripted) "hi" (Some 0%nat) None 5 scripted_state
      = Some (Ret r, s') /\
    exists ev,
      trace_of s' = trace_of scripted_state ++ ev /\
      length (tool_calls_made r) = length (emitted ev) /\
      map request_of (tool_calls_made r) = emitted ev /\
      tool_calls_made r = executed ev.
Proof.
  eexists _, _. split; [vm_compute; reflexivity|].
  apply (tool_calls_made_follows_emission Scripted "hi" (Some 0%nat) None 5
           scripted_state).
  reflexivity.
Defined.

Lemma insatiable_provider_exhausts_budget_witness :
  1 <= 3 /\
  exists made s',
    chat_with_tools (llm := Insatiable) "hi" None None 3 (mkPyState [] tt) =
    Some (Ret (mkResult fallback_response made 3 (Some "max_iterations_reached")),
          s').
Proof.
  split; [lia|].
  apply (insatiable_provider_exhausts_budget (llm := Insatiable)).
  - intros m t e. eexists _, _. split; [reflexivity|discriminate].
  - intros n a e. eexists _, _. reflexivity.
  - intros n v e. eexists _, _. reflexivity.
  - lia.
Defined.

(** C4, as stated, fails: the Gemini provider returns an empty content when
    the hosted model sends neither text nor function call, and the run, which
    is not exhausted, ends with an empty final text. *)
Lemma final_text_can_be_empty :
  exists r s',
    chat_with_tools (llm := StubGemini) "hi" None None 5 (gemini_state [] true)
      = Some (Ret r, s') /\
    error r = None /\
    response r = "".
Proof. eexists _, _. split; [vm_compute; reflexivity|]. split; reflexivity. Qed.

Lemma final_text_is_last_content_or_fallback_witness :
  exists r s',
    chat_with_tools (llm := Traced StubGemini) "hi" None None 5
                    (logged_gemini_state [] true)
      = Some (Ret r, s') /\
    match error r with
    | None =>
        exists ev0 m t resp,
          trace_of s' = trace_of (logged_gemini_state [] true)
                          ++ ev0 ++ [EvChat m t (Ret resp)] /\
          response r = default "" (resp_content resp)
    | Some _ => response r = fallback_response /\ response r <> ""
    end.
Proof.
  eexists _, _. split; [vm_compute; reflexivity|].
  apply (final_text_is_last_content_or_fallback StubGemini "hi" None None 5
           (logged_gemini_state [] true)).
  reflexivity.
Defined.

(** C5, as stated, fails: the caller's list at location 0 has changed after
    the run. *)
Lemma caller_history_is_mutated :
  exists o s',
    chat_with_tools (llm := Scripted) "hi" (Some 0%nat) None 5 shared_state
      = Some (o, s') /\
    py_heap shared_state !! 0%nat = Some [system_message] /\
    py_heap s' !! 0%nat = Some [system_message; mkMessage "user" "hi"] /\
    py_heap s' !! 0%nat <> py_heap shared_state !! 0%nat.
Proof.
  eexists _, _. split; [vm_compute; reflexivity|].
  repeat split. discriminate.
Qed.

Lemma unknown_tool_is_reported_witness :
  tool_map (P := list (outcome ProviderResponse)) flaky_rpc simple_int !! "nope"
    = None /\
  (gemini_execute_tool_call flaky_rpc simple_int simple_format_exc "nope"
     [("limit", VInt 3)] (stub_env [] true)
   = (Ret (VDict [("error", VStr ("Unknown tool: " +:+ "nope"))]), stub_env [] true) /\
   contains ("Unknown tool: " +:+ "nope") "nope").
Proof.
  split; [vm_compute; reflexivity|].
  apply (unknown_tool_is_reported flaky_rpc simple_int simple_format_exc).
  vm_compute; reflexivity.
Defined.

Lemma provider_fault_becomes_error_turn_witness :
  let messages := [mkMessage "user" "hi"] in
  let env := stub_env [Raise network_down] true in
  scripted_generate_content (model_name the_llm) (gemini_tools_of None)
      (full_prompt messages) (provider env) = (Raise network_down, []) /\
  let env' := mkEnv (stdout env ++ ["Error in Gemini chat: " +:+ exc_str network_down;
                                     simple_format_exc network_down])
                    [] (backend env) in
  gemini_chat scripted_generate_content simple_format_exc the_llm messages None env
    = (Ret (mkResponse (Some ("Error: " +:+ exc_str network_down)) (Some [])), env') /\
  forall fuel p max_iterations made it heap,
    it < max_iterations ->
    default [] (heap !! p) = messages ->
    chat_loop (llm := StubGemini) (S fuel) p None max_iterations made it
              (mkPyState heap env)
    = Some (Ret (mkResult ("Error: " +:+ exc_str network_down) made (it + 1) None),
            mkPyState heap env').
Proof.
  intros messages env. split; [reflexivity|].
  apply (provider_fault_becomes_error_turn scripted_generate_content flaky_rpc
           simple_int simple_str simple_json_dumps simple_format_exc the_llm
           messages None env network_down []).
  reflexivity.
Defined.

Lemma backend_fault_is_caught_witness :
  let c := LowStockProducts (VInt 5) in
  let env := stub_env [] false in
  let req := flaky_rpc "get_low_stock_products" [("p_limit", VInt 5)] in
  backend_request flaky_rpc flaky_table_select simple_int c = Some req /\
  req (backend env) = (Raise network_down, false) /\
  run_call flaky_rpc flaky_table_select simple_int c env
    = (Ret (VList []),
       mkEnv ["Error calling get_low_stock_products: network is unreachable"]
             [] false) /\
  forall env0 : Env (list (outcome ProviderResponse)) bool, exists v env',
    run_call flaky_rpc flaky_table_select simple_int c env0 = (Ret v, env').
Proof.
  intros c env req. split; [reflexivity|]. split; [reflexivity|].
  apply (backend_fault_is_caught flaky_rpc flaky_table_select simple_int c env req
           network_down false); reflexivity.
Defined.



Lemma exhausted_run_records_last_iteration_witness :
  1 <= 2 /\
  exists r s',
    chat_with_tools (llm := Traced Insatiable) "hi" None None 2 insatiable_state
      = Some (Ret r, s') /\
    error r = Some "max_iterations_reached" /\
    exists ev0 m t resp evs,
      trace_of s' = trace_of insatiable_state ++ ev0 ++ EvChat m t (Ret resp) :: evs /\
      Z.of_nat (chat_calls ev0) = 2 - 1 /\
      chat_calls evs = O /\
      requested_calls resp <> [] /\
      map request_of (executed evs) = requested_calls resp /\
      tool_calls_made r = executed ev0 ++ executed evs /\
      map request_of (tool_calls_made r) = emitted ev0 ++ requested_calls resp.
Proof.
  split; [lia|].
  eexists _, _. split; [vm_compute; reflexivity|]. split; [reflexivity|].
  apply (exhausted_run_records_last_iteration Insatiable "hi" None None 2
           insatiable_state); [lia|vm_compute; reflexivity|reflexivity].
Defined.

(** * Further properties *)

(** ** The conversation as the provider sees it *)

Lemma synthetic_turns_app (t u : list Event) :
  synthetic_turns (t ++ u) = synthetic_turns t ++ synthetic_turns u.
Proof.
  induction t as [|[| |n v [f|e]] t IH]; simpl; rewrite ?IH; reflexivity.
Qed.

Lemma ledger_ok_app tools (t u : list Event) :
  forall L,
    ledger_ok tools L (t ++ u) <->
    ledger_ok tools L t /\ ledger_ok tools (L ++ synthetic_turns t) u.
Proof.
  induction t as [|[m tl o|n a o|n v [f|e]] t IH]; intros L; simpl.
  - rewrite app_nil_r. tauto.
  - rewrite IH. tauto.
  - apply IH.
  - rewrite IH, <- app_assoc. reflexivity.
  - apply IH.
Qed.

Lemma ledger_ok_no_chat tools (t : list Event) :
  chat_calls t = O -> forall L, ledger_ok tools L t.
Proof.
  induction t as [|[m tl o|n a o|n v [f|e]] t IH]; simpl; intros Hc L;
    try discriminate; auto.
Qed.

Lemma log_outcome_app {A} (o : outcome A) (t u : list Event) :
  Forall returned t -> log_outcome o u -> log_outcome o (t ++ u).
Proof.
  destruct o as [a|e]; simpl.
  - intros Ht Hu. apply Forall_app. auto.
  - intros Ht (u0 & last & -> & Hu0 & Hlast).
    exists (t ++ u0), last. rewrite app_assoc. split; [reflexivity|].
    split; [apply Forall_app; auto|exact Hlast].
Qed.

Section WorkingList.
Context {E : Type} {llm : BaseLLM E}.

Lemma chat_with_tools_working_list (user_message : string) (h : option loc)
    (tools : option (list ToolDef)) (max : Z) (s : PyState E) :
  exists s1,
    chat_with_tools user_message h tools max s =
      chat_loop (Z.to_nat max) (working_loc h (py_heap s)) tools max [] 0 s1 /\
    py_env s1 = py_env s /\
    py_heap s1 !! working_loc h (py_heap s) =
      Some (working_base h (py_heap s) ++ [mkMessage "user" user_message]).
Proof.
  destruct (chat_with_tools_prelude user_message h tools max s)
    as (p & s1 & Heq & Henv & Hheap).
  exists s1. rewrite Heq.
  destruct Hheap as [(m & l & -> & Hp & Hs1)|(-> & Hempty & Hs1)].
  - unfold working_loc, working_base. rewrite Hp. cbn [default].
    split; [reflexivity|]. split; [exact Henv|].
    rewrite Hs1, list_lookup_alter_eq, Hp. reflexivity.
  - assert (Hloc : working_loc h (py_heap s) = length (py_heap s)).
    { unfold working_loc. destruct h as [q|]; [|reflexivity].
      specialize (Hempty q eq_refl).
      destruct (py_heap s !! q) as [[|m l]|]; try reflexivity. discriminate. }
    assert (Hbase : working_base h (py_heap s) = []).
    { unfold working_base. destruct h as [q|]; [|reflexivity]. auto. }
    rewrite Hloc, Hbase. split; [reflexivity|]. split; [exact Henv|].
    rewrite Hs1. apply list_lookup_middle. reflexivity.
Qed.

(** X1. When the first response of the provider asks for no tool, the run
    ends there: for a budget of at least one iteration the result carries
    the content of that response, no record, [iterations = 1] and no
    ['error'] key, and the conversation has gained the user message only. *)
Theorem first_answer_ends_run
    (user_message : string) (h : option loc) (tools : option (list ToolDef))
    (max_iterations : Z) (s : PyState E) (resp : Response) (e' : E) :
  1 <= max_iterations ->
  chat (working_base h (py_heap s) ++ [mkMessage "user" user_message]) tools
       (py_env s) = (Ret resp, e') ->
  requested_calls resp = [] ->
  exists heap',
    chat_with_tools user_message h tools max_iterations s
      = Some (Ret (mkResult (default "" (resp_content resp)) [] 1 None),
              mkPyState heap' e') /\
    heap' !! working_loc h (py_heap s)
      = Some (working_base h (py_heap s) ++ [mkMessage "user" user_message]).
Proof.
  intros Hmax Hchat Hnone.
  destruct (chat_with_tools_working_list user_message h tools max_iterations s)
    as (s1 & -> & Henv & Hheap).
  exists (py_heap s1). split; [|exact Hheap].
  destruct (Z.to_nat max_iterations) as [|fuel] eqn:Hfuel; [lia|].
  rewrite chat_loop_unfold. destruct (Z.ltb_spec 0 max_iterations); [|lia].
  unfold and_then at 1, heap_read. rewrite Hheap. cbn [default].
  unfold and_then, lift, id. rewrite Henv, Hchat, Hnone. reflexivity.
Qed.
End WorkingList.

Section Ledger.
Context {E : Type} (llm : BaseLLM E).

(** One pass over the tool requests of a response: the list at [p] gains the
    synthetic turns of the calls that were rendered. *)
Lemma exec_tool_calls_ledger (p : loc) (calls : list ToolCall) :
  forall made s o s' L,
    exec_tool_calls (llm := Traced llm) p calls made s = (o, s') ->
    py_heap s !! p = Some L ->
    exists ev,
      trace_of s' = trace_of s ++ ev /\
      chat_calls ev = O /\
      py_heap s' !! p = Some (L ++ synthetic_turns ev) /\
      log_outcome o ev.
Proof.
  induction calls as [|c calls IH]; intros made s o s' L Hrun HL.
  - injection Hrun as <- <-. exists []. rewrite !app_nil_r.
    repeat split; auto. constructor.
  - cbn [exec_tool_calls] in Hrun.
    apply bind_inv in Hrun as [(v & s1 & Hexec & Hrun)|(e & Hexec & ->)];
      apply lift_logged_inv in Hexec as (e1 & _ & ->).
    2:{ eexists [_]. split; [reflexivity|]. cbn [py_heap synthetic_turns].
        rewrite app_nil_r. repeat split; auto.
        exists [], (EvExec (tc_name c) (tc_arguments c) (Raise e)).
        repeat split; auto. }
    apply bind_inv in Hrun as [(f & s2 & Hfmt & Hrun)|(e & Hfmt & ->)];
      apply lift_logged_inv in Hfmt as (e2 & _ & ->).
    2:{ eexists [_; _]. split; [unfold trace_of; simpl; rewrite <- app_assoc; reflexivity|].
        cbn [py_heap synthetic_turns]. rewrite app_nil_r. repeat split; auto.
        exists [EvExec (tc_name c) (tc_arguments c) (Ret v)],
               (EvFormat (tc_name c) v (Raise e)).
        repeat split; auto. repeat constructor. }
    unfold bind, heap_append in Hrun. cbn [fst snd py_heap py_env] in Hrun.
    eapply IH in Hrun as (ev & Htr & Hc & Hheap & Hout).
    2:{ cbn [py_heap]. rewrite !list_lookup_alter_eq, HL. reflexivity. }
    exists (EvExec (tc_name c) (tc_arguments c) (Ret v)
              :: EvFormat (tc_name c) v (Ret f) :: ev).
    split.
    { rewrite Htr. unfold trace_of. simpl. rewrite <- !app_assoc. reflexivity. }
    split; [exact Hc|]. split.
    { rewrite Hheap. cbn [synthetic_turns]. unfold tool_turns.
      rewrite <- !app_assoc. reflexivity. }
    apply (log_outcome_app o [_; _]); [repeat constructor|exact Hout].
Qed.

Lemma chat_loop_ledger (p : loc) (tools : option (list ToolDef)) (max : Z) :
  forall fuel made it s o s' L,
    chat_loop (llm := Traced llm) fuel p tools max made it s = Some (o, s') ->
    py_heap s !! p = Some L ->
    exists ev,
      trace_of s' = trace_of s ++ ev /\
      py_heap s' !! p = Some (L ++ synthetic_turns ev) /\
      ledger_ok tools L ev /\
      log_outcome o ev.
Proof.
  induction fuel as [|fuel IH]; intros made it s o s' L Hrun HL;
    [simpl in Hrun|rewrite chat_loop_unfold in Hrun];
    destruct (it <? max); try discriminate;
    try (injection Hrun as <- <-; exists []; rewrite !app_nil_r;
         repeat split; auto; constructor).
  apply and_then_inv in Hrun as [(msgs & s0 & [= <- <-] & Hrun)|(e & [=] & _)].
  rewrite HL in Hrun. cbn [default] in Hrun.
  apply and_then_inv in Hrun as [(resp & s1 & Hchat & Hrun)|(e & Hchat & ->)];
    apply lift_logged_inv in Hchat as (e1 & _ & ->).
  2:{ eexists [_]. split; [reflexivity|]. cbn [py_heap synthetic_turns].
      rewrite app_nil_r. split; [exact HL|]. split; [simpl; auto|].
      exists [], (EvChat L tools (Raise e)). repeat split; auto. }
  destruct (requested_calls resp) as [|c calls].
  { injection Hrun as <- <-. eexists [_]. split; [reflexivity|].
    cbn [py_heap synthetic_turns]. rewrite app_nil_r.
    split; [exact HL|]. split; [simpl; auto|]. repeat constructor. }
  apply and_then_inv in Hrun as [(made1 & s2 & Hexec & Hrun)|(e & Hexec & ->)];
    eapply exec_tool_calls_ledger in Hexec as (ev1 & Htr1 & Hc1 & Hheap1 & Hout1);
    try exact HL.
  2:{ exists (EvChat L tools (Ret resp) :: ev1).
      split; [rewrite Htr1; unfold trace_of; simpl; rewrite <- app_assoc; reflexivity|].
      split; [exact Hheap1|].
      split; [simpl; auto using ledger_ok_no_chat|].
      apply (log_outcome_app _ [_]); [repeat constructor|exact Hout1]. }
  eapply IH in Hrun as (ev2 & Htr2 & Hheap2 & Hled2 & Hout2); [|exact Hheap1].
  exists (EvChat L tools (Ret resp) :: ev1 ++ ev2).
  split.
  { rewrite Htr2, Htr1. unfold trace_of. simpl. rewrite <- !app_assoc. reflexivity. }
  split; [cbn [synthetic_turns]; rewrite synthetic_turns_app, app_assoc; exact Hheap2|].
  split.
  { simpl. split; [reflexivity|]. split; [reflexivity|].
    apply ledger_ok_app. split; [apply ledger_ok_no_chat, Hc1|exact Hled2]. }
  rewrite app_comm_cons. apply log_outcome_app; [|exact Hout2].
  constructor; [exact I|]. exact Hout1.
Qed.

Lemma chat_with_tools_ledger (user_message : string) (h : option loc)
    (tools : option (list ToolDef)) (max : Z) (s : PyState (E * list Event))
    (o : outcome Result) (s' : PyState (E * list Event)) :
  chat_with_tools (llm := Traced llm) user_message h tools max s = Some (o, s') ->
  let base := working_base h (py_heap s) ++ [mkMessage "user" user_message] in
  exists ev,
    trace_of s' = trace_of s ++ ev /\
    py_heap s' !! working_loc h (py_heap s) = Some (base ++ synthetic_turns ev) /\
    ledger_ok tools base ev /\
    log_outcome o ev.
Proof.
  intros Hrun base.
  destruct (chat_with_tools_working_list (llm := Traced llm)
              user_message h tools max s)
    as (s1 & Heq & Henv & Hheap).
  rewrite Heq in Hrun.
  eapply chat_loop_ledger in Hrun as (ev & Htr & Hfinal & Hled & Hout);
    [|exact Hheap].
  exists ev. unfold trace_of in *. rewrite <- Henv. auto.
Qed.

(** C5, amended.  [chat_with_tools] makes no copy of the history: line 105
    names the caller's own list whenever that list is not empty, and lines
    108 and 141-148 append to it.  For every list [old] that exists before
    a run, with [ev] the calls of the provider that the run makes:
    when [old] is the supplied history and is not empty, it is after the
    run [old] followed by the user message and by the synthetic turns of
    [ev], two for each tool result that was rendered, in the order of the
    calls; otherwise it is after the run what it was before.  When the
    history is [None] or empty, the user message and the synthetic turns go
    to a list that did not exist before the run.  So every list that
    existed before the run keeps its messages, unchanged and in order, as a
    prefix. *)
Theorem history_is_extended_in_place
    (user_message : string) (h : option loc) (tools : option (list ToolDef))
    (max_iterations : Z) (s : PyState (E * list Event))
    (o : outcome Result) (s' : PyState (E * list Event))
    (q : loc) (old : list Message) :
  chat_with_tools (llm := Traced llm) user_message h tools max_iterations s
    = Some (o, s') ->
  py_heap s !! q = Some old ->
  exists ev,
    trace_of s' = trace_of s ++ ev /\
    (h = Some q /\ old <> [] ->
     py_heap s' !! q =
       Some (old ++ mkMessage "user" user_message :: synthetic_turns ev)) /\
    (h <> Some q \/ old = [] -> py_heap s' !! q = Some old) /\
    (h = None \/ (h = Some q /\ old = []) ->
     py_heap s !! length (py_heap s) = None /\
     py_heap s' !! length (py_heap s) =
       Some (mkMessage "user" user_message :: synthetic_turns ev)).
Proof.
  intros Hrun Hq.
  destruct (chat_with_tools_ledger _ _ _ _ _ _ _ Hrun) as (ev & Htr & Hfinal & _).
  exists ev. split; [exact Htr|]. split; [|split].
  - intros [-> Hne]. unfold working_loc, working_base in Hfinal.
    rewrite Hq in Hfinal. destruct old as [|m l]; [contradiction|].
    cbn [default] in Hfinal. rewrite Hfinal, <- app_assoc. reflexivity.
  - intros Hother.
    destruct (chat_with_tools_only_appends (llm := Traced llm) _ _ _ _ _ _ _
                q old Hrun Hq) as (added & Hq' & _ & Hnone).
    rewrite Hq', (Hnone Hother), app_nil_r. reflexivity.
  - intros Hnew. split; [apply lookup_ge_None; lia|].
    assert (Hloc : working_loc h (py_heap s) = length (py_heap s) /\
                   working_base h (py_heap s) = []).
    { unfold working_loc, working_base.
      destruct Hnew as [->|[-> ->]]; [split; reflexivity|].
      rewrite Hq. split; reflexivity. }
    destruct Hloc as [Hloc Hbase]. rewrite Hloc, Hbase in Hfinal.
    exact Hfinal.
Qed.

(** X2. After a run, whatever its outcome, the list that [chat_with_tools]
    worked on holds the supplied history, then the user message, then for
    each tool call that was rendered one assistant turn naming the tool and
    one user turn with the rendered result, in the order of the calls. *)
Theorem conversation_after_run
    (user_message : string) (h : option loc) (tools : option (list ToolDef))
    (max_iterations : Z) (s : PyState (E * list Event))
    (o : outcome Result) (s' : PyState (E * list Event)) :
  chat_with_tools (llm := Traced llm) user_message h tools max_iterations s
    = Some (o, s') ->
  exists ev,
    trace_of s' = trace_of s ++ ev /\
    py_heap s' !! working_loc h (py_heap s) =
      Some (working_base h (py_heap s)
              ++ mkMessage "user" user_message :: synthetic_turns ev).
Proof.
  intros Hrun.
  destruct (chat_with_tools_ledger _ _ _ _ _ _ _ Hrun) as (ev & Htr & Hfinal & _).
  exists ev. split; [exact Htr|]. rewrite Hfinal, <- app_assoc. reflexivity.
Qed.

(** X3. Every call of [chat] in a run is handed the tool list unchanged and
    the whole conversation so far: the supplied history, the user message,
    and the synthetic turns of all the tool calls rendered before it. *)
Theorem provider_sees_whole_conversation
    (user_message : string) (h : option loc) (tools : option (list ToolDef))
    (max_iterations : Z) (s : PyState (E * list Event))
    (o : outcome Result) (s' : PyState (E * list Event)) :
  chat_with_tools (llm := Traced llm) user_message h tools max_iterations s
    = Some (o, s') ->
  exists ev,
    trace_of s' = trace_of s ++ ev /\
    forall ev1 m t o' ev2,
      ev = ev1 ++ EvChat m t o' :: ev2 ->
      m = working_base h (py_heap s)
            ++ mkMessage "user" user_message :: synthetic_turns ev1 /\
      t = tools.
Proof.
  intros Hrun.
  destruct (chat_with_tools_ledger _ _ _ _ _ _ _ Hrun) as (ev & Htr & _ & Hled & _).
  exists ev. split; [exact Htr|].
  intros ev1 m t o' ev2 ->. apply ledger_ok_app in Hled as [_ Hled].
  destruct Hled as (-> & -> & _). rewrite <- app_assoc. auto.
Qed.

(** X4. [chat_with_tools] has no handler of its own: it raises exactly when
    a method of the provider raises.  A run that returns a result made only
    calls that returned; a run that raises [e] stopped at the first call
    that raised, and [e] is the exception of that call. *)
Theorem provider_exception_propagates
    (user_message : string) (h : option loc) (tools : option (list ToolDef))
    (max_iterations : Z) (s : PyState (E * list Event))
    (o : outcome Result) (s' : PyState (E * list Event)) :
  chat_with_tools (llm := Traced llm) user_message h tools max_iterations s
    = Some (o, s') ->
  exists ev,
    trace_of s' = trace_of s ++ ev /\
    match o with
    | Ret _ => Forall returned ev
    | Raise e =>
        exists ev0 last,
          ev = ev0 ++ [last] /\ Forall returned ev0 /\ raised e last
    end.
Proof.
  intros Hrun.
  destruct (chat_with_tools_ledger _ _ _ _ _ _ _ Hrun) as (ev & Htr & _ & _ & Hout).
  exists ev. split; [exact Htr|exact Hout].
Qed.

(** X5. [iterations] in a result is the number of calls of [chat] that the
    run made.  It lies between 1 and [max_iterations] when the run was not
    exhausted, and it is [max_iterations], or 0 for a budget below 0, when
    it was. *)
Theorem iterations_counts_chat_calls
    (user_message : string) (h : option loc) (tools : option (list ToolDef))
    (max_iterations : Z) (s : PyState (E * list Event)) (r : Result)
    (s' : PyState (E * list Event)) :
  chat_with_tools (llm := Traced llm) user_message h tools max_iterations s
    = Some (Ret r, s') ->
  exists ev,
    trace_of s' = trace_of s ++ ev /\
    iterations r = Z.of_nat (chat_calls ev) /\
    match error r with
    | None => 1 <= iterations r <= max_iterations
    | Some _ => iterations r = Z.max 0 max_iterations
    end.
Proof.
  intros Hrun.
  destruct (chat_with_tools_traced llm user_message h tools max_iterations s)
    as (o & s1 & ev & Hrun' & Htr & Hcalls & Hres).
  rewrite Hrun in Hrun'. injection Hrun' as <- <-.
  destruct (Hres r eq_refl) as (_ & _ & Hit & Herr).
  exists ev. split; [exact Htr|]. split; [lia|].
  destruct (error r) as [err|].
  - destruct Herr as (_ & _ & Hcnt & _). lia.
  - destruct Herr as (ev0 & m & t & resp & -> & _).
    rewrite chat_calls_app in *. cbn [chat_calls] in *. lia.
Qed.

Lemma rendered_app (t u : list Event) : rendered (t ++ u) = rendered t ++ rendered u.
Proof. induction t as [|[] t IH]; simpl; rewrite ?IH; reflexivity. Qed.

Lemma exec_tool_calls_rendered (p : loc) (calls : list ToolCall) :
  forall made s o s',
    exec_tool_calls (llm := Traced llm) p calls made s = (o, s') ->
    exists ev,
      trace_of s' = trace_of s ++ ev /\
      map shown_of (executed ev) = rendered ev.
Proof.
  induction calls as [|c calls IH]; intros made s o s' Hrun.
  - injection Hrun as <- <-. exists []. now rewrite app_nil_r.
  - cbn [exec_tool_calls] in Hrun.
    apply bind_inv in Hrun as [(v & s1 & Hexec & Hrun)|(e & Hexec & ->)];
      apply lift_logged_inv in Hexec as (e1 & _ & ->).
    2:{ eexists [_]. split; reflexivity. }
    apply bind_inv in Hrun as [(f & s2 & Hfmt & Hrun)|(e & Hfmt & ->)];
      apply lift_logged_inv in Hfmt as (e2 & _ & ->).
    2:{ eexists [_; _].
        split; [unfold trace_of; simpl; rewrite <- app_assoc; reflexivity|].
        reflexivity. }
    unfold bind, heap_append in Hrun. cbn [fst snd py_heap py_env] in Hrun.
    apply IH in Hrun as (ev & Htr & Hev).
    exists (EvExec (tc_name c) (tc_arguments c) (Ret v)
              :: EvFormat (tc_name c) v (Ret f) :: ev).
    split.
    { rewrite Htr. unfold trace_of. simpl. rewrite <- !app_assoc. reflexivity. }
    simpl. now rewrite Hev.
Qed.

Lemma chat_loop_rendered (p : loc) (tools : option (list ToolDef)) (max : Z) :
  forall fuel made it s o s',
    chat_loop (llm := Traced llm) fuel p tools max made it s = Some (o, s') ->
    exists ev,
      trace_of s' = trace_of s ++ ev /\
      map shown_of (executed ev) = rendered ev.
Proof.
  induction fuel as [|fuel IH]; intros made it s o s' Hrun;
    [simpl in Hrun|rewrite chat_loop_unfold in Hrun];
    destruct (it <? max); try discriminate;
    try (injection Hrun as <- <-; exists []; now rewrite app_nil_r).
  apply and_then_inv in Hrun as [(msgs & s0 & [= <- <-] & Hrun)|(e & [=] & _)].
  apply and_then_inv in Hrun as [(resp & s1 & Hchat & Hrun)|(e & Hchat & ->)];
    apply lift_logged_inv in Hchat as (e1 & _ & ->).
  2:{ eexists [_]. split; reflexivity. }
  destruct (requested_calls resp) as [|c calls].
  { injection Hrun as <- <-. eexists [_]. split; reflexivity. }
  apply and_then_inv in Hrun as [(made1 & s2 & Hexec & Hrun)|(e & Hexec & ->)];
    apply exec_tool_calls_rendered in Hexec as (ev1 & Htr1 & Hev1).
  2:{ eexists (_ :: ev1).
      split; [rewrite Htr1; unfold trace_of; simpl; rewrite <- app_assoc; reflexivity|].
      exact Hev1. }
  apply IH in Hrun as (ev2 & Htr2 & Hev2).
  eexists (_ :: ev1 ++ ev2).
  split.
  { rewrite Htr2, Htr1. unfold trace_of. simpl. rewrite <- !app_assoc. reflexivity. }
  cbn [executed rendered]. now rewrite executed_app, rendered_app, map_app, Hev1, Hev2.
Qed.

(** X6. What is rendered for the provider is what is recorded: in every
    run, whatever its outcome, [format_tool_response] is called once for each
    tool call that returned, in order, with the name of that tool and the
    very result that [execute_tool_call] returned. *)
Theorem rendered_results_are_the_recorded_ones
    (user_message : string) (h : option loc) (tools : option (list ToolDef))
    (max_iterations : Z) (s : PyState (E * list Event))
    (o : outcome Result) (s' : PyState (E * list Event)) :
  chat_with_tools (llm := Traced llm) user_message h tools max_iterations s
    = Some (o, s') ->
  exists ev,
    trace_of s' = trace_of s ++ ev /\
    map (fun r => (rec_name r, rec_result r)) (executed ev) = rendered ev /\
    forall r, o = Ret r ->
      map (fun r => (rec_name r, rec_result r)) (tool_calls_made r) = rendered ev.
Proof.
  intros Hrun.
  destruct (chat_with_tools_traced llm user_message h tools max_iterations s)
    as (o1 & s1 & ev & Hrun' & Htr & _ & Hres).
  rewrite Hrun in Hrun'. injection Hrun' as <- <-.
  destruct (chat_with_tools_working_list (llm := Traced llm)
              user_message h tools max_iterations s) as (s0 & Heq & Henv & _).
  rewrite Heq in Hrun. apply chat_loop_rendered in Hrun as (ev' & Htr' & Hev).
  assert (ev' = ev) as ->.
  { unfold trace_of in *. rewrite Henv, Htr in Htr'. now apply app_inv_head in Htr'. }
  exists ev. split; [exact Htr|]. split; [exact Hev|].
  intros r Hr. destruct (Hres r Hr) as (Hmade & _). rewrite Hmade. exact Hev.
Qed.
End Ledger.

(** ** The Gemini provider *)

Lemma append_assoc (s1 s2 s3 : string) : (s1 +:+ s2) +:+ s3 = s1 +:+ s2 +:+ s3.
Proof.
  induction s1 as [|a s1 IH]; [reflexivity|].
  change (String a ((s1 +:+ s2) +:+ s3) = String a (s1 +:+ s2 +:+ s3)).
  now rewrite IH.
Qed.

Lemma extract_parts_spec (ps : list Part) :
  forall content calls,
    fold_left extract_part ps (content, calls) =
    (content +:+ String.concat "" (map part_text ps),
     calls ++ flat_map part_calls ps).
Proof.
  assert (Hconcat : forall t l, String.concat "" (t :: l) = t +:+ String.concat "" l).
  { intros t [|u l]; [symmetry; apply append_empty_r|reflexivity]. }
  induction ps as [|part ps IH]; intros content calls.
  - simpl. now rewrite append_empty_r, app_nil_r.
  - cbn [fold_left map flat_map]. rewrite Hconcat.
    assert (Hstep : extract_part (content, calls) part =
                    (content +:+ part_text part, calls ++ part_calls part)).
    { unfold extract_part, part_text, part_calls.
      destruct (function_call part) as [fc|], (text part) as [t|];
        cbn [fst snd default]; rewrite ?app_nil_r, ?append_empty_r;
        try reflexivity;
        destruct (String.eqb_spec t "") as [->|_];
        rewrite ?append_empty_r; reflexivity. }
    rewrite Hstep, IH, append_assoc, <- app_assoc. reflexivity.
Qed.

Lemma extract_candidates_spec (cs : list Candidate) :
  forall content calls,
    fold_left extract_candidate cs (content, calls) =
    (content +:+ String.concat "" (map part_text (flat_map parts cs)),
     calls ++ flat_map part_calls (flat_map parts cs)).
Proof.
  assert (Hconcat : forall l1 l2 : list string,
    String.concat "" (l1 ++ l2) = String.concat "" l1 +:+ String.concat "" l2).
  { induction l1 as [|t l1 IH]; intros l2; [reflexivity|].
    destruct l1 as [|u l1].
    - destruct l2 as [|v l2]; [symmetry; apply append_empty_r|reflexivity].
    - change (t +:+ "" +:+ String.concat "" ((u :: l1) ++ l2) =
              (t +:+ "" +:+ String.concat "" (u :: l1)) +:+ String.concat "" l2).
      rewrite IH, !append_assoc. reflexivity. }
  induction cs as [|c cs IH]; intros content calls.
  - simpl. now rewrite append_empty_r, app_nil_r.
  - cbn [fold_left flat_map]. unfold extract_candidate at 2.
    rewrite extract_parts_spec, IH, map_app, Hconcat, flat_map_app,
      append_assoc, <- app_assoc.
    reflexivity.
Qed.

(** X7. [chat] reads a provider response part by part: the tool requests of
    its result are the function calls of all parts, none dropped and in
    order, and the content is the texts of all parts joined, or the
    placeholder when there are tool requests and no text. *)
Theorem parse_response_collects_all_parts (r : ProviderResponse) :
  let calls := flat_map part_calls (all_parts r) in
  let texts := String.concat "" (map part_text (all_parts r)) in
  parse_response r =
  mkResponse
    (Some (match calls with
           | [] => texts
           | _ :: _ => if String.eqb texts "" then "[Calling tools...]" else texts
           end))
    (Some calls).
Proof.
  unfold parse_response, all_parts.
  rewrite extract_candidates_spec. cbn [fst snd app].
  destruct (flat_map part_calls _); reflexivity.
Qed.

(** X8. In every response that [chat] builds from the provider's answer,
    both keys are present, and the content is not empty when there is a tool
    request. *)
Theorem parsed_tool_calls_have_content (r : ProviderResponse) :
  exists content calls,
    parse_response r = mkResponse (Some content) (Some calls) /\
    (calls <> [] -> content <> "").
Proof.
  unfold parse_response. rewrite extract_candidates_spec. cbn [fst snd app].
  eexists _, _. split; [reflexivity|].
  destruct (flat_map part_calls _); [congruence|].
  intros _.
  match goal with
  | |- (if String.eqb ?content "" then _ else _) <> "" =>
      destruct (String.eqb_spec content ""); [discriminate|assumption]
  end.
Qed.

(** Messages whose role is none of the three are left out of the prompt. *)
Lemma prompt_part_unknown_role (msg : Message) :
  known_role msg = false -> prompt_part msg = [].
Proof.
  unfold known_role, prompt_part. intros H.
  apply orb_false_elim in H as [H Ha]. apply orb_false_elim in H as [Hs Hu].
  now rewrite Hs, Hu, Ha.
Qed.

(** X9. The prompt sent to the hosted model is built from the system, user
    and assistant messages only: a message with any other role is left out
    without a trace. *)
Theorem full_prompt_ignores_other_roles (messages : list Message) :
  full_prompt (filter (fun msg => known_role msg = true) messages)
  = full_prompt messages.
Proof.
  unfold full_prompt. f_equal.
  induction messages as [|msg messages IH]; [reflexivity|].
  cbn [flat_map]. rewrite filter_cons.
  destruct (decide (known_role msg = true)) as [Hk|Hk].
  - cbn [flat_map]. now rewrite IH.
  - apply not_true_is_false in Hk. rewrite (prompt_part_unknown_role _ Hk). exact IH.
Qed.

(** Looking a registered name up in [tool_map]. *)
Ltac lookup_tool :=
  unfold gemini_execute_tool_call, tool_map; cbn [list_to_map foldr fst snd];
  repeat (rewrite lookup_insert_ne by (intro; discriminate));
  rewrite lookup_insert_eq; cbv beta.

Section Reliable.
Context {E : Type} {llm : BaseLLM E}.

(** A provider none of whose methods raises. *)
Hypothesis chat_returns :
  forall m t e, exists resp e', chat m t e = (Ret resp, e').
Hypothesis execute_returns :
  forall n a e, exists v e', execute_tool_call n a e = (Ret v, e').
Hypothesis format_returns :
  forall n v e, exists f e', format_tool_response n v e = (Ret f, e').

Lemma chat_loop_returns (p : loc) (tools : option (list ToolDef)) (max : Z) :
  forall fuel made it (s : PyState E),
    (Z.to_nat (max - it) <= fuel)%nat ->
    exists r s', chat_loop fuel p tools max made it s = Some (Ret r, s').
Proof.
  induction fuel as [|fuel IH]; intros made it s Hfuel.
  - simpl. destruct (Z.ltb_spec it max); [lia|]. eexists _, _; reflexivity.
  - rewrite chat_loop_unfold. destruct (Z.ltb_spec it max).
    2:{ eexists _, _; reflexivity. }
    unfold and_then at 1, heap_read. unfold and_then at 1, lift at 1.
    destruct (chat_returns (default [] (py_heap s !! p)) tools (py_env s))
      as (resp & e1 & ->).
    destruct (requested_calls resp) as [|c calls]; [eexists _, _; reflexivity|].
    unfold and_then.
    destruct (exec_tool_calls_returns execute_returns format_returns
                p (c :: calls) made (mkPyState (py_heap s) e1))
      as (made1 & s2 & ->).
    apply IH; lia.
Qed.

Lemma reliable_provider_always_returns
    (user_message : string) (h : option loc) (tools : option (list ToolDef))
    (max_iterations : Z) (s : PyState E) :
  exists r s',
    chat_with_tools user_message h tools max_iterations s = Some (Ret r, s').
Proof.
  destruct (chat_with_tools_prelude user_message h tools max_iterations s)
    as (p & s1 & -> & _).
  apply chat_loop_returns. rewrite Z.sub_0_r. reflexivity.
Qed.
End Reliable.

Section GeminiFurther.
Context {P B : Type}.
Variable generate_content :
  string -> option (list Tool) -> string -> Eff P ProviderResponse.
Variable rpc : string -> Args -> Eff B PyVal.
Variable table_select : string -> string -> list (string * string) -> Eff B PyVal.
Variable py_int : PyVal -> outcome Z.
Variable py_str : PyVal -> string.
Variable json_dumps : PyVal -> string.
Variable format_exc : Exc -> string.
Variable self : GeminiLLM.

Local Abbreviation Env := (Env P B).
Local Abbreviation gemini :=
  (Gemini generate_content rpc py_int py_str json_dumps format_exc self).
Local Abbreviation execute := (gemini_execute_tool_call rpc py_int format_exc).

Lemma gemini_chat_returns messages tools (env : Env) :
  exists resp env',
    gemini_chat generate_content format_exc self messages tools env = (Ret resp, env').
Proof.
  apply try_except_returns. intros e s. eexists _, _. reflexivity.
Qed.

Lemma gemini_execute_returns tool_name tool_args (env : Env) :
  exists v env', execute tool_name tool_args env = (Ret v, env').
Proof.
  unfold gemini_execute_tool_call.
  destruct (tool_map rpc py_int !! tool_name) as [func|];
    [|eexists _, _; reflexivity].
  apply try_except_returns. intros e s. eexists _, _. reflexivity.
Qed.

Lemma gemini_format_returns tool_name tool_result (env : Env) :
  exists f env',
    gemini_format_tool_response py_str json_dumps tool_name tool_result env
      = (Ret f, env').
Proof.
  unfold gemini_format_tool_response.
  destruct tool_result as [| | | | |d]; try (eexists _, _; reflexivity).
  destruct (dict_get d "error"); eexists _, _; reflexivity.
Qed.

(** X10. With the Gemini provider no fault escapes [chat_with_tools]: for
    every behaviour of the hosted model and of the database, every history,
    tool list and budget, the run returns a result and raises nothing. *)
Theorem gemini_run_never_raises
    (user_message : string) (h : option loc) (tools : option (list ToolDef))
    (max_iterations : Z) (s : PyState Env) :
  exists r s',
    chat_with_tools (llm := gemini) user_message h tools max_iterations s
      = Some (Ret r, s').
Proof.
  apply (reliable_provider_always_returns (llm := gemini)).
  - apply gemini_chat_returns.
  - apply gemini_execute_returns.
  - apply gemini_format_returns.
Qed.

Lemma dict_get_app (kw l : Args) (k : string) :
  dict_get (kw ++ l) k =
  match dict_get kw k with Some v => Some v | None => dict_get l k end.
Proof.
  induction kw as [|[k' v] kw IH]; [reflexivity|]. simpl.
  destruct (String.eqb k' k); [reflexivity|exact IH].
Qed.

Lemma unexpected_kwarg_app (params : list string) (kw l : Args) :
  unexpected_kwarg params (kw ++ l) =
  match unexpected_kwarg params kw with
  | Some k => Some k
  | None => unexpected_kwarg params l
  end.
Proof.
  induction kw as [|[k v] kw IH]; [reflexivity|]. simpl.
  destruct (existsb (String.eqb k) params); [exact IH|reflexivity].
Qed.

(** X11. A tool request with a keyword that the bound function does not have
    is not sent to the database: [execute_tool_call] returns an error value
    that names the function and the keyword, and prints two lines.  The same
    holds for a search request without its search term. *)
Theorem unexpected_keyword_is_reported
    (name : string) (params : list string) (kw : Args) (k : string) (env : Env) :
  In (name, params) tool_signatures ->
  unexpected_kwarg params kw = Some k ->
  let msg := name +:+ "() got an unexpected keyword argument '" +:+ k +:+ "'" in
  execute name kw env =
    (Ret (VDict [("error", VStr msg)]),
     mkEnv (stdout env ++ ["Error executing tool " +:+ name +:+ ": " +:+ msg;
                           format_exc (TypeError msg)])
           (provider env) (backend env)) /\
  exists msg',
    execute "search_products_by_description" [] env =
      (Ret (VDict [("error", VStr msg')]),
       mkEnv (stdout env ++ ["Error executing tool search_products_by_description: "
                               +:+ msg';
                             format_exc (TypeError msg')])
             (provider env) (backend env)) /\
    contains msg' "search_term".
Proof.
  intros Hin Hkw msg. split.
  - simpl in Hin.
    repeat (destruct Hin as [[= <- <-]|Hin];
            [lookup_tool; unfold try_except, bind, check_kwargs; rewrite Hkw;
             unfold raise, print, ret, error_value; simpl;
             rewrite <- app_assoc; reflexivity|]).
    contradiction.
  - eexists. split.
    + lookup_tool. unfold try_except, bind, check_kwargs, raise, print, ret,
        error_value; simpl. rewrite <- app_assoc. reflexivity.
    + exists "search_products_by_description() missing 1 required positional argument: '",
             "'". reflexivity.
Qed.

(** X12. Leaving an optional argument out of a tool request is the same as
    passing the default that the bound function declares for it. *)
Theorem omitted_argument_takes_default
    (name k : string) (d : PyVal) (kw : Args) (env : Env) :
  In (name, k, d) tool_defaults ->
  dict_get kw k = None ->
  execute name (kw ++ [(k, d)]) env = execute name kw env.
Proof.
  intros Hin Hk. simpl in Hin.
  repeat (destruct Hin as [[= <- <- <-]|Hin];
          [lookup_tool; unfold try_except, bind, check_kwargs, kwarg;
           rewrite unexpected_kwarg_app, !dict_get_app, ?Hk;
           destruct (unexpected_kwarg _ kw); [reflexivity|];
           cbn [unexpected_kwarg existsb String.eqb Ascii.eqb Bool.eqb orb dict_get];
           repeat match goal with
                  | |- context [dict_get kw ?x] => destruct (dict_get kw x)
                  end;
           reflexivity|]).
  contradiction.
Qed.

(** X13. A request for a tool that is not in [tool_map] does not stop the
    loop over the requests of a response: it is recorded with the error
    value as its result, the provider is told so in the two synthetic turns,
    and the remaining requests are executed.  Neither the hosted model nor
    the database is contacted and nothing is printed. *)
Theorem unknown_tool_request_is_folded_in
    (p : loc) (tool_call : ToolCall) (rest : list ToolCall)
    (made : list ToolRecord) (heap : list (list Message)) (env : Env) :
  tool_map (P := P) rpc py_int !! tc_name tool_call = None ->
  (forall s, py_str (VStr s) = s) ->
  let name := tc_name tool_call in
  let report := "Error executing " +:+ name +:+ ": Unknown tool: " +:+ name in
  exec_tool_calls (llm := gemini) p (tool_call :: rest) made (mkPyState heap env)
  = exec_tool_calls (llm := gemini) p rest
      (made ++ [mkToolRecord name (tc_arguments tool_call)
                  (VDict [("error", VStr ("Unknown tool: " +:+ name))])])
      (mkPyState (alter (fun l => l ++ tool_turns name report) p heap) env).
Proof.
  intros Hunknown Hstr name report.
  cbn [exec_tool_calls]. unfold bind at 1, lift at 1.
  cbn [py_env execute_tool_call Gemini]. unfold gemini_execute_tool_call.
  rewrite Hunknown. unfold ret at 1, error_value. cbn [py_heap].
  unfold bind at 1, lift at 1.
  cbn [py_env py_heap format_tool_response Gemini gemini_format_tool_response
       dict_get String.eqb Ascii.eqb Bool.eqb].
  unfold ret at 1. rewrite Hstr.
  unfold bind, heap_append. cbn [py_heap py_env].
  rewrite list_alter_alter_eq. f_equal. f_equal.
  apply list_alter_ext; [|reflexivity].
  intros l _. unfold tool_turns. cbn. rewrite <- app_assoc. reflexivity.
Qed.

(** X14. When the backend answers, the data access functions other than
    [get_product_details] and [get_all_categories] hand its rows on as they
    are and print nothing. *)
Theorem query_returns_backend_rows
    (c : DataAccessCall) (env : Env) (req : Eff B PyVal) (data : PyVal) (b' : B) :
  passes_rows_on c = true ->
  backend_request rpc table_select py_int c = Some req ->
  req (backend env) = (Ret data, b') ->
  run_call rpc table_select py_int c env
    = (Ret data, mkEnv (stdout env) (provider env) b').
Proof.
  intros Hpass Hreq Hdata.
  destruct c; try discriminate Hpass; simpl in Hreq;
    repeat match type of Hreq with
           | context [py_int ?x] => destruct (py_int x) eqn:?; simpl in Hreq
           end;
    try discriminate; injection Hreq as <-;
    cbn [run_call];
    unfold get_top_selling_products, get_trending_products,
      search_products_by_description, get_low_stock_products,
      get_sales_summary_by_category, get_recent_transactions,
      get_category_products, try_except, bind, of_outcome, on_backend;
    repeat match goal with H : py_int _ = _ |- _ => rewrite H end;
    rewrite Hdata; reflexivity.
Qed.

(** X15. When the backend answers [get_product_details] with a list of
    rows, the function returns the first row, or [None] when there is no
    row, and prints nothing. *)
Theorem product_details_is_first_row
    (product_id product_name : PyVal) (env : Env) (rows : list PyVal) (b' : B) :
  rpc "get_product_details"
      [("p_product_id", product_id); ("p_product_name", product_name)]
      (backend env) = (Ret (VList rows), b') ->
  get_product_details rpc product_id product_name env
    = (Ret (default VNone (head rows)), mkEnv (stdout env) (provider env) b').
Proof.
  intros Hdata.
  unfold get_product_details, try_except, bind, on_backend. rewrite Hdata.
  destruct rows; reflexivity.
Qed.

(** X16. When [int] rejects a numeric argument of a data access function,
    no request is sent to the backend: the function prints its error line and
    returns its empty value. *)
Theorem rejected_number_sends_nothing (c : DataAccessCall) (env : Env) :
  backend_request rpc table_select py_int c = None ->
  exists e,
    run_call rpc table_select py_int c env
      = (Ret (failure_value c),
         mkEnv (stdout env ++ [failure_line c e]) (provider env) (backend env)).
Proof.
  intros Hreq.
  destruct c; simpl in Hreq;
    repeat match type of Hreq with
           | context [py_int ?x] => destruct (py_int x) eqn:?; simpl in Hreq
           end;
    try discriminate;
    cbn [run_call];
    unfold get_top_selling_products, get_trending_products,
      get_low_stock_products, get_sales_summary_by_category,
      get_recent_transactions, try_except, bind, of_outcome;
    repeat match goal with H : py_int _ = _ |- _ => rewrite H end;
    eexists; reflexivity.
Qed.

Lemma map_outcome_names (rows names : list PyVal) :
  Forall2 (fun row n => py_getitem row "name" = Ret n) rows names ->
  map_outcome (fun cat => py_getitem cat "name") rows = Ret names.
Proof.
  induction 1 as [|row n rows names Hrow _ IH]; [reflexivity|].
  simpl. now rewrite Hrow, IH.
Qed.

Lemma map_outcome_raises (rows : list PyVal) :
  Exists (fun row => exists e, py_getitem row "name" = Raise e) rows ->
  exists e, map_outcome (fun cat => py_getitem cat "name") rows = Raise e.
Proof.
  induction 1 as [row rows (e & He)|row rows _ (e & IH)]; simpl.
  - rewrite He. eauto.
  - destruct (py_getitem row "name"); [rewrite IH|]; eauto.
Qed.

(** X17. [get_all_categories] returns the names of the rows, in order, when
    every row has a name.  When some row has none, the names of the other
    rows are lost with it: the function prints an error line and returns
    the empty list. *)
Theorem all_categories_is_all_or_nothing
    (env : Env) (rows : list PyVal) (b' : B) :
  table_select "categories" "name" [] (backend env) = (Ret (VList rows), b') ->
  (forall names,
     Forall2 (fun row n => py_getitem row "name" = Ret n) rows names ->
     get_all_categories table_select env
       = (Ret (VList names), mkEnv (stdout env) (provider env) b')) /\
  (Exists (fun row => exists e, py_getitem row "name" = Raise e) rows ->
   exists e,
     get_all_categories table_select env
       = (Ret (VList []),
          mkEnv (stdout env ++ ["Error getting categories: " +:+ exc_str e])
                (provider env) b')).
Proof.
  intros Hdata. split.
  - intros names Hnames.
    unfold get_all_categories, try_except, bind, on_backend, of_outcome.
    rewrite Hdata. cbn [py_iter]. rewrite (map_outcome_names _ _ Hnames).
    reflexivity.
  - intros Hbad. destruct (map_outcome_raises _ Hbad) as (e & He).
    exists e.
    unfold get_all_categories, try_except, bind, on_backend, of_outcome.
    rewrite Hdata. cbn [py_iter]. rewrite He. reflexivity.
Qed.
End GeminiFurther.

(** ** The tool definitions and the registry *)

Lemma unexpected_kwarg_none (params : list string) (kw : Args) :
  (forall k v, In (k, v) kw -> In k params) ->
  unexpected_kwarg params kw = None.
Proof.
  induction kw as [|[k v] kw IH]; intros Hkeys; [reflexivity|]. simpl.
  assert (Hk : existsb (String.eqb k) params = true).
  { apply existsb_exists. exists k. split; [|apply String.eqb_refl].
    apply (Hkeys k v). now left. }
  rewrite Hk. apply IH. intros k' v' Hin. apply (Hkeys k' v'). now right.
Qed.

Lemma lower_ascii_idempotent (c : Ascii.ascii) :
  lower_ascii (lower_ascii c) = lower_ascii c.
Proof. destruct c as [[] [] [] [] [] [] [] []]; reflexivity. Qed.

Lemma lower_idempotent (s : string) : lower (lower s) = lower s.
Proof.
  induction s as [|c s IH]; [reflexivity|]. simpl.
  now rewrite lower_ascii_idempotent, IH.
Qed.

(** X18. [get_tools_for_provider] looks at the provider name in lower case
    only: it returns the Gemini definitions for [gemini], the same
    definitions wrapped one by one as functions for [openai], and raises a
    [ValueError] that carries the name as given for anything else. *)
Theorem tools_for_provider_by_lower_case_name (provider : string) :
  match get_tools_for_provider provider with
  | Ret (inl tools) => lower provider = "gemini" /\ tools = GEMINI_TOOLS
  | Ret (inr tools) =>
      lower provider = "openai" /\
      map oa_function tools = GEMINI_TOOLS /\
      Forall (fun tool => oa_type tool = "function") tools
  | Raise e =>
      lower provider <> "gemini" /\ lower provider <> "openai" /\
      e = ValueError ("Unknown provider: " +:+ provider)
  end /\
  (forall tools,
     get_tools_for_provider provider = Ret tools ->
     get_tools_for_provider (lower provider) = Ret tools).
Proof.
  unfold get_tools_for_provider. rewrite lower_idempotent.
  destruct (String.eqb_spec (lower provider) "gemini") as [Hg|Hg];
    [split; [split|]; auto|].
  destruct (String.eqb_spec (lower provider) "openai") as [Ho|Ho].
  - split; [|auto]. split; [exact Ho|]. split; [reflexivity|].
    unfold OPENAI_TOOLS. apply Forall_map, Forall_forall. reflexivity.
  - split; [auto|]. discriminate.
Qed.

Section Registry.
Context {P B : Type}.
Variable rpc : string -> Args -> Eff B PyVal.
Variable table_select : string -> string -> list (string * string) -> Eff B PyVal.
Variable py_int : PyVal -> outcome Z.
Variable format_exc : Exc -> string.

Local Abbreviation Env := (Env P B).
Local Abbreviation execute := (gemini_execute_tool_call rpc py_int format_exc).

(** X19. The tools declared to the model in [GEMINI_TOOLS] are exactly the
    tools that [execute_tool_call] knows. *)
Theorem declared_tools_are_the_registered_tools (name : string) :
  In name (map td_name GEMINI_TOOLS) <-> tool_map (P := P) rpc py_int !! name <> None.
Proof.
  rewrite tool_map_names.
  change (map td_name GEMINI_TOOLS) with
    ["get_top_selling_products"; "get_trending_products";
     "search_products_by_description"; "get_low_stock_products";
     "get_sales_summary_by_category"; "get_product_details";
     "get_recent_transactions"].
  split; [tauto|]. intros Hnn.
  destruct (in_dec string_dec name
              ["get_top_selling_products"; "get_trending_products";
               "search_products_by_description"; "get_low_stock_products";
               "get_sales_summary_by_category"; "get_product_details";
               "get_recent_transactions"]); tauto.
Qed.

Ltac dispatch c env Hu :=
  exists c; split; [reflexivity|]; cbn [td_name]; lookup_tool;
  unfold try_except, bind, check_kwargs; rewrite Hu; unfold ret;
  let v := fresh "v" in
  let env' := fresh "env'" in
  let Hr := fresh "Hr" in
  destruct (data_access_returns rpc table_select py_int c env) as (v & env' & Hr);
  cbn [run_call] in Hr |- *; rewrite Hr; reflexivity.

(** X20. A request that conforms to the schema declared for a tool, that is
    whose arguments are all declared and which has the required ones, is
    never turned away: [execute_tool_call] answers with what the data access
    function bound to that very tool name returns when it is called with
    the arguments of the request, those left out taking the defaults of its
    signature.  The call is [bound_call] of the name and the arguments, so
    a request for one tool never runs the query of another. *)
Theorem declared_request_reaches_data_access
    (tool : ToolDef) (kw : Args) (env : Env) :
  In tool GEMINI_TOOLS ->
  (forall k v, In (k, v) kw -> In k (declared_properties tool)) ->
  (forall k, In k (declared_required tool) -> dict_get kw k <> None) ->
  exists c,
    bound_call (td_name tool) kw = Some c /\
    execute (td_name tool) kw env = run_call rpc table_select py_int c env.
Proof.
  intros Hin Hkeys Hreq.
  assert (Hu := unexpected_kwarg_none _ kw Hkeys). clear Hkeys.
  simpl in Hin.
  destruct Hin as [<-|[<-|[<-|[<-|[<-|[<-|[<-|[]]]]]]]];
    cbn [declared_properties td_parameters dict_get String.eqb Ascii.eqb
         Bool.eqb map fst] in Hu.
  - dispatch (TopSellingProducts (kwarg kw "category" VNone)
                (kwarg kw "limit" (VInt 10)) (kwarg kw "days" (VInt 30))) env Hu.
  - dispatch (TrendingProducts (kwarg kw "days" (VInt 7))
                (kwarg kw "limit" (VInt 10))) env Hu.
  - specialize (Hreq "search_term" ltac:(now left)).
    destruct (dict_get kw "search_term") as [search_term|] eqn:Hterm;
      [|contradiction].
    exists (SearchProductsByDescription search_term).
    split; [cbn [td_name]; unfold bound_call; cbn [String.eqb Ascii.eqb Bool.eqb];
            rewrite Hterm; reflexivity|].
    cbn [td_name]. lookup_tool.
    unfold try_except, bind, check_kwargs. rewrite Hu. unfold ret. rewrite Hterm.
    destruct (data_access_returns rpc table_select py_int
                (SearchProductsByDescription search_term) env) as (v & env' & Hr).
    cbn [run_call] in Hr |- *. rewrite Hr. reflexivity.
  - dispatch (LowStockProducts (kwarg kw "limit" (VInt 20))) env Hu.
  - dispatch (SalesSummaryByCategory (kwarg kw "days" (VInt 30))) env Hu.
  - dispatch (ProductDetails (kwarg kw "product_id" VNone)
                (kwarg kw "product_name" VNone)) env Hu.
  - dispatch (RecentTransactions (kwarg kw "limit" (VInt 10))) env Hu.
Qed.
End Registry.

(** ** Settings *)

Lemma get_required_env_set (environ : Environ) (key : string) :
  is_set environ key ->
  exists value,
    environ !! key = Some value /\ _get_required_env key environ = (Ret value, environ).
Proof.
  intros (c & v & Hkey). exists (String c v). split; [exact Hkey|].
  unfold _get_required_env, bind, getenv. rewrite Hkey. reflexivity.
Qed.

Lemma get_required_env_unset (environ : Environ) (key : string) :
  ~ is_set environ key ->
  _get_required_env key environ
    = (Raise (ValueError (missing_env_message key)), environ).
Proof.
  intros Hunset. unfold _get_required_env, bind, getenv.
  destruct (environ !! key) as [[|c v]|] eqn:Hkey; try reflexivity.
  exfalso. apply Hunset. exists c, v. exact Hkey.
Qed.

Lemma is_set_dec (environ : Environ) (key : string) :
  is_set environ key \/ ~ is_set environ key.
Proof.
  unfold is_set. destruct (environ !! key) as [[|c v]|].
  - right. intros (c & v & [=]).
  - left. eauto.
  - right. intros (c & v & [=]).
Qed.

(** X21. [Settings()] succeeds exactly when the three required variables are
    set to values that are not empty; it then holds these values, and its
    debug flag is on exactly when [DEBUG] is set to [true] in some
    capitalisation. *)
Theorem settings_load_needs_all_three (environ : Environ) :
  (Forall (is_set environ) required_variables <->
   exists st, Settings_init environ = (Ret st, environ)) /\
  forall st environ',
    Settings_init environ = (Ret st, environ') ->
    environ !! "SUPABASE_URL" = Some (supabase_url st) /\
    environ !! "SUPABASE_KEY" = Some (supabase_key st) /\
    environ !! "GEMINI_API_KEY" = Some (gemini_api_key st) /\
    (debug st = true <->
     exists v, environ !! "DEBUG" = Some v /\ lower v = "true").
Proof.
  assert (Hrun : forall st environ',
    Settings_init environ = (Ret st, environ') ->
    environ' = environ /\
    Forall (is_set environ) required_variables /\
    environ !! "SUPABASE_URL" = Some (supabase_url st) /\
    environ !! "SUPABASE_KEY" = Some (supabase_key st) /\
    environ !! "GEMINI_API_KEY" = Some (gemini_api_key st) /\
    debug st = String.eqb (lower (default "False" (environ !! "DEBUG"))) "true").
  { intros st environ' Hinit. unfold Settings_init in Hinit.
    destruct (is_set_dec environ "SUPABASE_URL") as [H1|H1];
      [|unfold bind at 1 in Hinit; rewrite (get_required_env_unset _ _ H1) in Hinit;
        discriminate].
    destruct (get_required_env_set _ _ H1) as (v1 & Hv1 & Hr1).
    unfold bind at 1 in Hinit. rewrite Hr1 in Hinit.
    destruct (is_set_dec environ "SUPABASE_KEY") as [H2|H2];
      [|unfold bind at 1 in Hinit; rewrite (get_required_env_unset _ _ H2) in Hinit;
        discriminate].
    destruct (get_required_env_set _ _ H2) as (v2 & Hv2 & Hr2).
    unfold bind at 1 in Hinit. rewrite Hr2 in Hinit.
    destruct (is_set_dec environ "GEMINI_API_KEY") as [H3|H3];
      [|unfold bind at 1 in Hinit; rewrite (get_required_env_unset _ _ H3) in Hinit;
        discriminate].
    destruct (get_required_env_set _ _ H3) as (v3 & Hv3 & Hr3).
    unfold bind at 1 in Hinit. rewrite Hr3 in Hinit.
    unfold bind, getenv, ret in Hinit. injection Hinit as <- <-.
    cbn [supabase_url supabase_key gemini_api_key debug].
    repeat split; auto. repeat constructor; assumption. }
  split.
  - split.
    + intros Hall. unfold required_variables in Hall.
      apply Forall_cons in Hall as [H1 Hall]. apply Forall_cons in Hall as [H2 Hall].
      apply Forall_cons in Hall as [H3 _].
      destruct (get_required_env_set _ _ H1) as (v1 & _ & Hr1).
      destruct (get_required_env_set _ _ H2) as (v2 & _ & Hr2).
      destruct (get_required_env_set _ _ H3) as (v3 & _ & Hr3).
      eexists. unfold Settings_init, bind. rewrite Hr1, Hr2, Hr3. reflexivity.
    + intros (st & Hinit). apply Hrun in Hinit. tauto.
  - intros st environ' Hinit.
    destruct (Hrun _ _ Hinit) as (_ & _ & H1 & H2 & H3 & Hdebug).
    repeat split; auto.
    + rewrite Hdebug. intros Htrue. apply String.eqb_eq in Htrue.
      destruct (environ !! "DEBUG") as [v|]; [eauto|discriminate].
    + intros (v & Hv & Hlow). rewrite Hdebug, Hv. cbn [default].
      now apply String.eqb_eq.
Qed.

(** X22. When a required variable is missing or empty, [Settings()] raises a
    [ValueError] for the first such variable in the order [SUPABASE_URL],
    [SUPABASE_KEY], [GEMINI_API_KEY], and the message names it. *)
Theorem settings_error_names_first_missing
    (environ : Environ) (before after : list string) (key : string) :
  required_variables = before ++ key :: after ->
  Forall (is_set environ) before ->
  ~ is_set environ key ->
  Settings_init environ = (Raise (ValueError (missing_env_message key)), environ) /\
  contains (missing_env_message key) key.
Proof.
  intros Hsplit Hbefore Hkey. split.
  2:{ exists "Missing required environment variable: ",
             (nl +:+ "Please ensure your .env file contains " +:+ key +:+ "=your_value").
      reflexivity. }
  unfold required_variables in Hsplit.
  destruct before as [|b1 [|b2 [|b3 before]]]; simpl in Hsplit.
  - injection Hsplit as <- _.
    unfold Settings_init, bind. now rewrite (get_required_env_unset _ _ Hkey).
  - injection Hsplit as <- <- _. apply Forall_cons in Hbefore as [H1 _].
    destruct (get_required_env_set _ _ H1) as (v1 & _ & Hr1).
    unfold Settings_init, bind. now rewrite Hr1, (get_required_env_unset _ _ Hkey).
  - injection Hsplit as <- <- <- _. apply Forall_cons in Hbefore as [H1 Hbefore].
    apply Forall_cons in Hbefore as [H2 _].
    destruct (get_required_env_set _ _ H1) as (v1 & _ & Hr1).
    destruct (get_required_env_set _ _ H2) as (v2 & _ & Hr2).
    unfold Settings_init, bind.
    now rewrite Hr1, Hr2, (get_required_env_unset _ _ Hkey).
  - injection Hsplit as _ _ _ Hrest. destruct before; discriminate.
Qed.

(** ** The chat page *)

(** A run of the plain provider is the run of the logged one, without the
    log. *)
Lemma plain_run_is_erased_traced_run {E} (llm : BaseLLM E)
    (user_message : string) (h : option loc) (tools : option (list ToolDef))
    (max : Z) (s : PyState E) :
  exists o s' ev,
    chat_with_tools (llm := llm) user_message h tools max s = Some (o, erase s') /\
    chat_with_tools (llm := Traced llm) user_message h tools max
      (mkPyState (py_heap s) (py_env s, [])) = Some (o, s') /\
    trace_of s' = ev /\
    (chat_calls ev <= Z.to_nat max)%nat /\
    forall r, o = Ret r -> describes max 0 [] ev r.
Proof.
  destruct (chat_with_tools_traced llm user_message h tools max
              (mkPyState (py_heap s) (py_env s, [])))
    as (o & s' & ev & Hrun & Htr & Hcalls & Hres).
  exists o, s', ev.
  pose proof (traced_chat_with_tools_erase llm user_message h tools max
                (mkPyState (py_heap s) (py_env s, []))) as Herase.
  rewrite Hrun in Herase. cbn [option_map erase_run fst snd] in Herase.
  destruct s as [heap env]. symmetry in Herase.
  split; [exact Herase|]. auto.
Qed.

Lemma last_n_snoc {A} (n : nat) (l : list A) (x : A) :
  last_n (S n) (l ++ [x]) = last_n n l ++ [x].
Proof.
  unfold last_n. rewrite length_app. cbn [length].
  replace (length l + 1 - S n)%nat with (length l - n)%nat by lia.
  apply drop_app_le. lia.
Qed.

Lemma last_n_length {A} (n : nat) (l : list A) : (length (last_n n l) <= n)%nat.
Proof. unfold last_n. rewrite length_drop. lia. Qed.

Lemma history_entries_length (l : list ChatEntry) :
  (length (flat_map history_entry l) <= length l)%nat.
Proof.
  induction l as [|msg l IH]; [reflexivity|].
  cbn [flat_map]. rewrite length_app. unfold history_entry at 1.
  destruct (_ || _); cbn [length]; lia.
Qed.

Section AppProperties.
Context {E : Type}.
Variable SYSTEM_PROMPT : string.

(** The history that the page builds for a new input: the system prompt,
    what the window of ten leaves of the earlier transcript, which is nine
    entries, and the input itself, which the slice then drops. *)
Lemma conversation_history_snoc (messages : list ChatEntry) (user_input : string) :
  conversation_history SYSTEM_PROMPT
    (messages ++ [mkChatEntry "user" user_input None])
  = (mkMessage "system" SYSTEM_PROMPT
       :: flat_map history_entry (last_n 9 messages))
    ++ [mkMessage "user" user_input].
Proof.
  unfold conversation_history. rewrite last_n_snoc, flat_map_app. reflexivity.
Qed.

(** X23. Every input that is not empty adds exactly two entries to the
    transcript, the user's and one from the assistant, and leaves the
    earlier entries and the debug switch as they were.  The page calls
    [chat_with_tools] once, with the input, a new list holding the history
    without the input, the tools of [GEMINI_TOOLS] and a budget of five,
    and the assistant entry is decided by the outcome of that call.  When
    it returns a result, the entry carries the final text and the debug
    information of that result, and the page shows the text, and the debug
    expander if the switch is on.  When it raises [e], the entry is the
    error text made of [str(e)], without debug information, and the page
    shows that text in an error box. *)
Theorem input_adds_two_entries
    (llm : BaseLLM E) (c : Ascii.ascii) (rest : string) (ss : Session E) :
  let user_input := String c rest in
  let messages := session_messages ss ++ [mkChatEntry "user" user_input None] in
  let slice := removelast (conversation_history SYSTEM_PROMPT messages) in
  let py0 := mkPyState (py_heap (session_py ss) ++ [slice])
                       (py_env (session_py ss)) in
  exists o py ss',
    chat_with_tools (llm := llm) user_input
      (Some (length (py_heap (session_py ss)))) (Some GEMINI_TOOLS) 5 py0
      = Some (o, py) /\
    process_user_input (llm := llm) SYSTEM_PROMPT (Some user_input) ss = Some ss' /\
    session_show_debug ss' = session_show_debug ss /\
    session_py ss' = py /\
    match o with
    | Ret result =>
        session_messages ss' =
          session_messages ss
            ++ [mkChatEntry "user" user_input None;
                mkChatEntry "assistant" (response result)
                  (Some (mkDebugInfo (iterations result)
                                     (tool_calls_made result)))] /\
        session_ui ss' =
          session_ui ss
            ++ UiMarkdown "user" user_input
            :: UiMarkdown "assistant" (response result)
            :: (if session_show_debug ss
                then [UiDebug (iterations result)
                              (map request_of (tool_calls_made result))]
                else [])
    | Raise e =>
        session_messages ss' =
          session_messages ss
            ++ [mkChatEntry "user" user_input None;
                mkChatEntry "assistant" ("❌ Error: " +:+ exc_str e) None] /\
        session_ui ss' =
          session_ui ss
            ++ [UiMarkdown "user" user_input;
                UiError ("❌ Error: " +:+ exc_str e)]
    end.
Proof.
  intros user_input messages slice py0.
  unfold process_user_input. fold user_input. fold messages.
  unfold and_then at 1, heap_alloc. fold slice. fold py0.
  destruct (plain_run_is_erased_traced_run llm user_input
              (Some (length (py_heap (session_py ss)))) (Some GEMINI_TOOLS) 5 py0)
    as (o & s' & ev & Hrun & _).
  rewrite Hrun. exists o, (erase s').
  destruct o as [r|e]; eexists; (split; [reflexivity|]);
    (split; [reflexivity|]);
    cbn [session_messages session_show_debug session_ui session_py];
    unfold messages; rewrite <- !app_assoc; repeat split; reflexivity.
Qed.

(** X24. For an input of the page, every call of [chat] is handed the tools
    of [GEMINI_TOOLS] and a conversation that starts with the system prompt,
    goes on with the user and assistant entries among the last nine of the
    earlier transcript, then the input, then the synthetic turns made so
    far.  At most five calls are made. *)
Theorem page_conversation_window
    (llm : BaseLLM E) (c : Ascii.ascii) (rest : string)
    (ss ss' : Session (E * list Event)) :
  let user_input := String c rest in
  process_user_input (llm := Traced llm) SYSTEM_PROMPT (Some user_input) ss
    = Some ss' ->
  exists ev,
    trace_of (session_py ss') = trace_of (session_py ss) ++ ev /\
    (chat_calls ev <= 5)%nat /\
    (length (flat_map history_entry (last_n 9 (session_messages ss))) <= 9)%nat /\
    forall ev1 m t o ev2,
      ev = ev1 ++ EvChat m t o :: ev2 ->
      m = mkMessage "system" SYSTEM_PROMPT
            :: flat_map history_entry (last_n 9 (session_messages ss))
            ++ mkMessage "user" user_input :: synthetic_turns ev1 /\
      t = Some GEMINI_TOOLS.
Proof.
  intros user_input. unfold process_user_input. fold user_input.
  unfold and_then at 1, heap_alloc.
  rewrite conversation_history_snoc, removelast_last.
  set (slice := mkMessage "system" SYSTEM_PROMPT
                  :: flat_map history_entry (last_n 9 (session_messages ss))).
  set (s1 := mkPyState (py_heap (session_py ss) ++ [slice]) (py_env (session_py ss))).
  destruct (chat_with_tools_traced llm user_input
              (Some (length (py_heap (session_py ss)))) (Some GEMINI_TOOLS) 5 s1)
    as (o & s2 & ev & Hrun & Htr & Hcalls & _).
  rewrite Hrun.
  destruct (chat_with_tools_ledger llm _ _ _ _ _ _ _ Hrun)
    as (ev' & Htr' & _ & Hled & _).
  assert (ev' = ev) as -> by (rewrite Htr in Htr'; now apply app_inv_head in Htr').
  assert (Hsees : forall ev1 m t o' ev2,
            ev = ev1 ++ EvChat m t o' :: ev2 ->
            m = working_base (Some (length (py_heap (session_py ss)))) (py_heap s1)
                  ++ mkMessage "user" user_input :: synthetic_turns ev1 /\
            t = Some GEMINI_TOOLS).
  { intros ev1 m t o' ev2 Hev. rewrite Hev in Hled.
    apply ledger_ok_app in Hled as [_ Hled].
    destruct Hled as (-> & -> & _). rewrite <- app_assoc. auto. }
  assert (Hbase : working_base (Some (length (py_heap (session_py ss)))) (py_heap s1)
                  = slice).
  { unfold working_base, s1. cbn [py_heap]. now rewrite list_lookup_middle. }
  rewrite Hbase in Hsees.
  assert (Hlen : (length (flat_map history_entry (last_n 9 (session_messages ss)))
                  <= 9)%nat).
  { etransitivity; [apply history_entries_length|apply last_n_length]. }
  intros Hss'. exists ev.
  assert (Hpy : trace_of (session_py ss') = trace_of s2).
  { destruct o; injection Hss' as <-; reflexivity. }
  rewrite Hpy, Htr. split; [reflexivity|]. split; [exact Hcalls|].
  split; [exact Hlen|]. intros ev1 m t o' ev2 Hev.
  destruct (Hsees _ _ _ _ _ Hev) as [-> ->]. split; reflexivity.
Qed.
End AppProperties.

Section GeminiPage.
Context {P B : Type}.
Variable generate_content :
  string -> option (list Tool) -> string -> Eff P ProviderResponse.
Variable rpc : string -> Args -> Eff B PyVal.
Variable py_int : PyVal -> outcome Z.
Variable py_str : PyVal -> string.
Variable json_dumps : PyVal -> string.
Variable format_exc : Exc -> string.
Variable self : GeminiLLM.
Variable SYSTEM_PROMPT : string.

Local Abbreviation gemini :=
  (Gemini generate_content rpc py_int py_str json_dumps format_exc self).

End GeminiPage.

(** ** The further theorems at concrete inputs *)

Lemma history_is_extended_in_place_witness :
  exists o s',
    chat_with_tools (llm := Traced Scripted) "hi" (Some 0%nat) None 5 scripted_state
      = Some (o, s') /\
    py_heap scripted_state !! 0%nat = Some [system_message] /\
    py_heap s' !! 0%nat =
      Some [system_message; mkMessage "user" "hi";
            mkMessage "assistant" "[Tool call: get_low_stock_products]";
            mkMessage "user" "result of get_low_stock_products";
            mkMessage "assistant" "[Tool call: get_recent_transactions]";
            mkMessage "user" "result of get_recent_transactions"] /\
    exists ev,
      trace_of s' = trace_of scripted_state ++ ev /\
      (Some 0%nat = Some 0%nat /\ [system_message] <> [] ->
       py_heap s' !! 0%nat =
         Some ([system_message] ++ mkMessage "user" "hi" :: synthetic_turns ev)) /\
      (Some 0%nat <> Some 0%nat \/ [system_message] = [] ->
       py_heap s' !! 0%nat = Some [system_message]) /\
      (Some 0%nat = None \/ (Some 0%nat = Some 0%nat /\ [system_message] = []) ->
       py_heap scripted_state !! length (py_heap scripted_state) = None /\
       py_heap s' !! length (py_heap scripted_state) =
         Some (mkMessage "user" "hi" :: synthetic_turns ev)).
Proof.
  eexists _, _. split; [vm_compute; reflexivity|]. split; [reflexivity|].
  split; [reflexivity|].
  eapply (history_is_extended_in_place Scripted "hi" (Some 0%nat) None 5
            scripted_state); [vm_compute; reflexivity|reflexivity].
Defined.

Lemma conversation_after_run_witness :
  exists o s',
    chat_with_tools (llm := Traced Scripted) "hi" (Some 0%nat) None 5 scripted_state
      = Some (o, s') /\
    exists ev,
      trace_of s' = trace_of scripted_state ++ ev /\
      py_heap s' !! working_loc (Some 0%nat) (py_heap scripted_state) =
        Some (working_base (Some 0%nat) (py_heap scripted_state)
                ++ mkMessage "user" "hi" :: synthetic_turns ev).
Proof.
  eexists _, _. split; [vm_compute; reflexivity|].
  eapply (conversation_after_run Scripted "hi" (Some 0%nat) None 5 scripted_state).
  vm_compute; reflexivity.
Defined.

Lemma provider_sees_whole_conversation_witness :
  exists o s',
    chat_with_tools (llm := Traced Scripted) "hi" (Some 0%nat) None 5 scripted_state
      = Some (o, s') /\
    exists ev,
      trace_of s' = trace_of scripted_state ++ ev /\
      forall ev1 m t o' ev2,
        ev = ev1 ++ EvChat m t o' :: ev2 ->
        m = working_base (Some 0%nat) (py_heap scripted_state)
              ++ mkMessage "user" "hi" :: synthetic_turns ev1 /\
        t = None.
Proof.
  eexists _, _. split; [vm_compute; reflexivity|].
  eapply (provider_sees_whole_conversation Scripted "hi" (Some 0%nat) None 5
           scripted_state).
  vm_compute; reflexivity.
Defined.

Lemma provider_exception_propagates_witness :
  exists s',
    chat_with_tools (llm := Traced Faulty) "hi" None None 5 (mkPyState [] (tt, []))
      = Some (Raise network_down, s') /\
    exists ev,
      trace_of s' = trace_of (mkPyState [] (tt, [])) ++ ev /\
      exists ev0 last,
        ev = ev0 ++ [last] /\ Forall returned ev0 /\ raised network_down last.
Proof.
  eexists. split; [vm_compute; reflexivity|].
  eapply (provider_exception_propagates Faulty "hi" None None 5
           (mkPyState [] (tt, [])) (Raise network_down)).
  vm_compute; reflexivity.
Defined.

Lemma iterations_counts_chat_calls_witness :
  exists r s',
    chat_with_tools (llm := Traced Scripted) "hi" (Some 0%nat) None 5 scripted_state
      = Some (Ret r, s') /\
    exists ev,
      trace_of s' = trace_of scripted_state ++ ev /\
      iterations r = Z.of_nat (chat_calls ev) /\
      match error r with
      | None => 1 <= iterations r <= 5
      | Some _ => iterations r = Z.max 0 5
      end.
Proof.
  eexists _, _. split; [vm_compute; reflexivity|].
  eapply (iterations_counts_chat_calls Scripted "hi" (Some 0%nat) None 5
           scripted_state).
  vm_compute; reflexivity.
Defined.

Lemma unexpected_keyword_is_reported_witness :
  In ("get_low_stock_products", ["limit"]) tool_signatures /\
  unexpected_kwarg ["limit"] [("limit", VInt 3); ("bogus", VInt 1)] = Some "bogus" /\
  fst (gemini_execute_tool_call flaky_rpc simple_int simple_format_exc
         "get_low_stock_products" [("limit", VInt 3); ("bogus", VInt 1)]
         (stub_env [] true))
  = Ret (VDict [("error",
                 VStr "get_low_stock_products() got an unexpected keyword argument 'bogus'")]).
Proof.
  split; [do 3 right; left; reflexivity|]. split; [reflexivity|].
  rewrite (proj1 (unexpected_keyword_is_reported flaky_rpc simple_int
                    simple_format_exc "get_low_stock_products" ["limit"]
                    [("limit", VInt 3); ("bogus", VInt 1)] "bogus" (stub_env [] true)
                    ltac:(do 3 right; left; reflexivity) eq_refl)).
  reflexivity.
Defined.

Lemma omitted_argument_takes_default_witness :
  In ("get_low_stock_products", "limit", VInt 20) tool_defaults /\
  dict_get [] "limit" = None /\
  gemini_execute_tool_call flaky_rpc simple_int simple_format_exc
    "get_low_stock_products" ([] ++ [("limit", VInt 20)]) (stub_env [] true)
  = gemini_execute_tool_call flaky_rpc simple_int simple_format_exc
      "get_low_stock_products" [] (stub_env [] true).
Proof.
  split; [do 5 right; left; reflexivity|]. split; [reflexivity|].
  apply (omitted_argument_takes_default flaky_rpc simple_int simple_format_exc);
    [do 5 right; left; reflexivity|reflexivity].
Defined.

Lemma unknown_tool_request_is_folded_in_witness :
  tool_map (P := list (outcome ProviderResponse)) flaky_rpc simple_int !! "nope"
    = None /\
  (forall s, simple_str (VStr s) = s) /\
  exec_tool_calls (llm := StubGemini) 0 [mkToolCall "nope" []] []
    (mkPyState [[mkMessage "user" "hi"]] (stub_env [] true))
  = exec_tool_calls (llm := StubGemini) 0 []
      [mkToolRecord "nope" [] (VDict [("error", VStr "Unknown tool: nope")])]
      (mkPyState
         [[mkMessage "user" "hi";
           mkMessage "assistant" "[Tool call: nope]";
           mkMessage "user" "Error executing nope: Unknown tool: nope"]]
         (stub_env [] true)).
Proof.
  split; [vm_compute; reflexivity|]. split; [reflexivity|].
  apply (unknown_tool_request_is_folded_in scripted_generate_content flaky_rpc
           simple_int simple_str simple_json_dumps simple_format_exc the_llm
           0%nat (mkToolCall "nope" []) [] [] [[mkMessage "user" "hi"]]
           (stub_env [] true));
    [vm_compute; reflexivity|reflexivity].
Defined.

Lemma query_returns_backend_rows_witness :
  passes_rows_on (LowStockProducts (VInt 5)) = true /\
  backend_request flaky_rpc flaky_table_select simple_int (LowStockProducts (VInt 5))
    = Some (flaky_rpc "get_low_stock_products" [("p_limit", VInt 5)]) /\
  flaky_rpc "get_low_stock_products" [("p_limit", VInt 5)] true
    = (Ret sample_rows, true) /\
  run_call flaky_rpc flaky_table_select simple_int (LowStockProducts (VInt 5))
    (stub_env [] true)
  = (Ret sample_rows, stub_env [] true).
Proof.
  split; [reflexivity|]. split; [reflexivity|]. split; [reflexivity|].
  apply (query_returns_backend_rows flaky_rpc flaky_table_select simple_int
           (LowStockProducts (VInt 5)) (stub_env [] true)
           (flaky_rpc "get_low_stock_products" [("p_limit", VInt 5)])
           sample_rows true); reflexivity.
Defined.

Lemma product_details_is_first_row_witness :
  flaky_rpc "get_product_details"
    [("p_product_id", VInt 7); ("p_product_name", VNone)] true
    = (Ret (VList [VDict [("name", VStr "Merlot"); ("stock", VInt 2)]]), true) /\
  get_product_details flaky_rpc (VInt 7) VNone (stub_env [] true)
  = (Ret (VDict [("name", VStr "Merlot"); ("stock", VInt 2)]), stub_env [] true).
Proof.
  split; [reflexivity|].
  apply (product_details_is_first_row flaky_rpc (VInt 7) VNone (stub_env [] true)
           [VDict [("name", VStr "Merlot"); ("stock", VInt 2)]] true).
  reflexivity.
Defined.

Lemma rejected_number_sends_nothing_witness :
  backend_request flaky_rpc flaky_table_select simple_int (LowStockProducts VNone)
    = None /\
  exists e,
    run_call flaky_rpc flaky_table_select simple_int (LowStockProducts VNone)
      (stub_env [] true)
    = (Ret (VList []),
       mkEnv ([] ++ [failure_line (LowStockProducts VNone) e]) [] true).
Proof.
  split; [reflexivity|].
  apply (rejected_number_sends_nothing flaky_rpc flaky_table_select simple_int
           (LowStockProducts VNone) (stub_env [] true)).
  reflexivity.
Defined.

Lemma all_categories_is_all_or_nothing_witness :
  flaky_table_select "categories" "name" [] true
    = (Ret (VList [VDict [("name", VStr "Merlot"); ("stock", VInt 2)]]), true) /\
  get_all_categories flaky_table_select (stub_env [] true)
  = (Ret (VList [VStr "Merlot"]), stub_env [] true).
Proof.
  split; [reflexivity|].
  apply (proj1 (all_categories_is_all_or_nothing flaky_table_select
                  (stub_env [] true)
                  [VDict [("name", VStr "Merlot"); ("stock", VInt 2)]] true
                  eq_refl)).
  repeat constructor.
Defined.

Lemma settings_error_names_first_missing_witness :
  required_variables = ["SUPABASE_URL"] ++ "SUPABASE_KEY" :: ["GEMINI_API_KEY"] /\
  Forall (is_set partial_environ) ["SUPABASE_URL"] /\
  ~ is_set partial_environ "SUPABASE_KEY" /\
  Settings_init partial_environ
    = (Raise (ValueError (missing_env_message "SUPABASE_KEY")), partial_environ) /\
  contains (missing_env_message "SUPABASE_KEY") "SUPABASE_KEY".
Proof.
  assert (Hset : Forall (is_set partial_environ) ["SUPABASE_URL"]).
  { repeat constructor. eexists _, _. vm_compute. reflexivity. }
  assert (Hunset : ~ is_set partial_environ "SUPABASE_KEY").
  { intros (c & v & Hkey). vm_compute in Hkey. discriminate. }
  split; [reflexivity|]. split; [exact Hset|]. split; [exact Hunset|].
  apply (settings_error_names_first_missing partial_environ ["SUPABASE_URL"]
           ["GEMINI_API_KEY"] "SUPABASE_KEY" eq_refl Hset Hunset).
Defined.

Lemma declared_request_reaches_data_access_witness :
  exists tool,
    In tool GEMINI_TOOLS /\
    td_name tool = "search_products_by_description" /\
    (forall k v, In (k, v) [("search_term", VStr "citrus")] ->
                 In k (declared_properties tool)) /\
    (forall k, In k (declared_required tool) ->
               dict_get [("search_term", VStr "citrus")] k <> None) /\
    exists c,
      bound_call (td_name tool) [("search_term", VStr "citrus")] = Some c /\
      gemini_execute_tool_call flaky_rpc simple_int simple_format_exc
        (td_name tool) [("search_term", VStr "citrus")] (stub_env [] true)
      = run_call flaky_rpc flaky_table_select simple_int c (stub_env [] true).
Proof.
  eexists.
  assert (Hin : In (nth 2 GEMINI_TOOLS (mkToolDef "" "" VNone)) GEMINI_TOOLS)
    by (do 2 right; left; reflexivity).
  split; [exact Hin|]. split; [reflexivity|].
  assert (Hkeys : forall k v, In (k, v) [("search_term", VStr "citrus")] ->
            In k (declared_properties (nth 2 GEMINI_TOOLS (mkToolDef "" "" VNone)))).
  { intros k v [[= <- <-]|[]]. left. reflexivity. }
  assert (Hreq : forall k,
            In k (declared_required (nth 2 GEMINI_TOOLS (mkToolDef "" "" VNone))) ->
            dict_get [("search_term", VStr "citrus")] k <> None).
  { intros k [<-|[]]. discriminate. }
  split; [exact Hkeys|]. split; [exact Hreq|].
  exact (declared_request_reaches_data_access flaky_rpc flaky_table_select
           simple_int simple_format_exc _ _ (stub_env [] true) Hin Hkeys Hreq).
Defined.

Lemma input_adds_two_entries_witness :
  exists ss',
    process_user_input (llm := Faulty) "Be brief." (Some "hi") faulty_page
      = Some ss' /\
    session_messages ss' =
      session_messages faulty_page
        ++ [mkChatEntry "user" "hi" None;
            mkChatEntry "assistant" ("❌ Error: " +:+ exc_str network_down) None] /\
    session_ui ss' =
      session_ui faulty_page
        ++ [UiMarkdown "user" "hi";
            UiError ("❌ Error: " +:+ exc_str network_down)].
Proof.
  pose proof (input_adds_two_entries "Be brief." Faulty
                (Ascii.Ascii false false false true false true true false) "i"
                faulty_page) as Hpage.
  cbv zeta in Hpage.
  destruct Hpage as (o & py & ss' & Hrun & Hpage & _ & _ & Hentry).
  vm_compute in Hrun. injection Hrun as <- <-.
  exists ss'. split; [exact Hpage|exact Hentry].
Defined.

Lemma page_conversation_window_witness :
  exists ss',
    process_user_input (llm := Traced Scripted) "Be brief." (Some "hi") page_state
      = Some ss' /\
    exists ev,
      trace_of (session_py ss') = trace_of (session_py page_state) ++ ev /\
      (chat_calls ev <= 5)%nat /\
      (length (flat_map history_entry (last_n 9 (session_messages page_state)))
       <= 9)%nat /\
      forall ev1 m t o ev2,
        ev = ev1 ++ EvChat m t o :: ev2 ->
        m = mkMessage "system" "Be brief."
              :: flat_map history_entry (last_n 9 (session_messages page_state))
              ++ mkMessage "user" "hi" :: synthetic_turns ev1 /\
        t = Some GEMINI_TOOLS.
Proof.
  eexists. split; [vm_compute; reflexivity|].
  eapply (page_conversation_window "Be brief." Scripted _ _ page_state).
  vm_compute; reflexivity.
Defined.

Lemma first_answer_ends_run_witness :
  1 <= 5 /\
  chat (BaseLLM := Scripted)
       (working_base (Some 0%nat) (py_heap shared_state) ++ [mkMessage "user" "hi"])
       None (py_env shared_state)
    = (Ret (mkResponse (Some "done") (Some [])), []) /\
  requested_calls (mkResponse (Some "done") (Some [])) = [] /\
  exists heap',
    chat_with_tools (llm := Scripted) "hi" (Some 0%nat) None 5 shared_state
      = Some (Ret (mkResult "done" [] 1 None), mkPyState heap' []) /\
    heap' !! working_loc (Some 0%nat) (py_heap shared_state)
      = Some (working_base (Some 0%nat) (py_heap shared_state)
                ++ [mkMessage "user" "hi"]).
Proof.
  split; [lia|]. split; [reflexivity|]. split; [reflexivity|].
  apply (first_answer_ends_run (llm := Scripted) "hi" (Some 0%nat) None 5
           shared_state (mkResponse (Some "done") (Some [])) []);
    [lia|reflexivity|reflexivity].
Defined.

Lemma rendered_results_are_the_recorded_ones_witness :
  exists o s',
    chat_with_tools (llm := Traced Scripted) "hi" (Some 0%nat) None 5 scripted_state
      = Some (o, s') /\
    exists ev,
      trace_of s' = trace_of scripted_state ++ ev /\
      map (fun r => (rec_name r, rec_result r)) (executed ev) = rendered ev /\
      forall r, o = Ret r ->
        map (fun r => (rec_name r, rec_result r)) (tool_calls_made r) = rendered ev.
Proof.
  eexists _, _. split; [vm_compute; reflexivity|].
  eapply (rendered_results_are_the_recorded_ones Scripted "hi" (Some 0%nat) None 5
            scripted_state).
  vm_compute; reflexivity.
Defined.
